(** * tweetnlp: the text-classification training orchestrator

    A shallow embedding of [tweetnlp/text_classification/trainer.py]
    (class [TrainerTextClassification]) and the properties of it that the
    specification states.

    The class is glue code around external libraries (transformers,
    datasets, ray.tune, huggingface_hub, numpy, json, os, shutil).  The
    embedding keeps the control flow of the class as it is written and
    takes every external call as a field of the class [Externals]: an
    oracle that may fail.  The orchestrator's own state ([self]), the file
    system it writes to and the sequence of external calls it makes are
    explicit, threaded through a state-and-exception monad in which a
    raised exception keeps the mutations made before it, as in Python. *)

From Stdlib Require Import ZArith Ascii String List Bool Floats Lia.
From stdpp Require Import base option strings list gmap.

Local Open Scope string_scope.
Local Open Scope Z_scope.
Local Open Scope list_scope.

(** ** Python values *)

(** The dynamically typed scalars that flow through the class: search
    bounds, hyperparameters, training arguments and metric values.  A
    Python [float] is a binary64 number. *)
Inductive PyVal : Type :=
| VNone
| VBool (b : bool)
| VInt (z : Z)
| VFloat (f : float)
| VStr (s : string).

(** [operator.index]: what [range] accepts as a bound ([bool] is a
    subclass of [int]). *)
Definition py_index (v : PyVal) : option Z :=
  match v with
  | VInt z => Some z
  | VBool b => Some (Z.b2z b)
  | _ => None
  end.

(** [list(range(lo, hi))]. *)
Definition py_range (lo hi : Z) : list Z := seqZ lo (hi - lo).

(** ** Python dictionaries

    A [dict] keeps its items in insertion order and its keys pairwise
    distinct; assigning to a key that is present replaces the value in
    place. *)
Module PyDict.
Section dict.
Context {K V : Type} `{EqDecision K}.

Definition t : Type := list (K * V).

Definition keys (d : t) : list K := d.*1.

(** The representation invariant of a dictionary. *)
Definition wf (d : t) : Prop := NoDup (keys d).

Fixpoint get (k : K) (d : t) : option V :=
  match d with
  | [] => None
  | (k', v) :: d' => if decide (k = k') then Some v else get k d'
  end.

(** [d[k] = v]. *)
Fixpoint set (k : K) (v : V) (d : t) : t :=
  match d with
  | [] => [(k, v)]
  | (k', v') :: d' =>
      if decide (k = k') then (k', v) :: d' else (k', v') :: set k v d'
  end.

(** A dict display or comprehension: the items are stored one after the
    other, so a later item with the key of an earlier one overwrites
    it. *)
Definition of_items (l : list (K * V)) : t :=
  fold_left (fun d kv => set kv.1 kv.2 d) l [].
End dict.
Global Arguments t : clear implicits.
End PyDict.

(** ** Paths *)

(** [os.path.join(a, b)] of [posixpath], for two components. *)
Definition ends_with_slash (a : string) : bool :=
  match String.get (Nat.pred (String.length a)) a with
  | Some c => bool_decide (c = "/"%char)
  | None => false
  end.

Definition starts_with_slash (b : string) : bool :=
  match b with
  | String c _ => bool_decide (c = "/"%char)
  | EmptyString => false
  end.

Definition pj (a b : string) : string :=
  if starts_with_slash b then b
  else if bool_decide (a = "") || ends_with_slash a then a +:+ b
  else a +:+ "/" +:+ b.

(** ** Exceptions *)

(** The exceptions the class can end with.  [AssertionError msg shown] is
    raised by an [assert] of the class itself: [msg] is the literal part of
    the message and [shown] the list that an f-string appends to it (empty
    for a plain message).  An exception that comes out of an external call
    is [External who e]: the class has no [try], so it reaches the caller
    as it is. *)
Inductive PyError {ExtErr : Type} : Type :=
| AssertionError (msg : string) (shown : list PyVal)
| TypeError (msg : string)
| KeyError (key : option string)
| ZeroDivisionError
| External (who : string) (e : ExtErr).
Global Arguments PyError : clear implicits.

Inductive Res {E A : Type} : Type :=
| Raise (e : E)
| Ok (a : A).
Global Arguments Res : clear implicits.

Definition res_bind {E A B : Type} (r : Res E A) (k : A -> Res E B) : Res E B :=
  match r with
  | Raise e => Raise e
  | Ok a => k a
  end.

(** A comprehension whose element expression can raise: the first
    exception ends it. *)
Fixpoint res_map {E A B : Type} (f : A -> Res E B) (l : list A)
  : Res E (list B) :=
  match l with
  | [] => Ok []
  | x :: l' =>
      res_bind (f x) (fun y => res_bind (res_map f l') (fun ys => Ok (y :: ys)))
  end.

(** ** The hyperparameter search space *)

(** [tune.loguniform(lo, hi)] and [tune.choice(cands)] build sampling
    domains; the search engine draws from them. *)
Inductive Domain : Type :=
| Loguniform (lo hi : PyVal)
| Choice (cands : list PyVal).

Section search_space.
Context {ExtErr : Type}.
Local Abbreviation Err := (PyError ExtErr).

(** [[1e-6, 1e-4]], written as the binary64 numbers nearest to them. *)
Definition default_search_range_lr : list PyVal :=
  [VFloat 0x1.0c6f7a0b5ed8dp-20; VFloat 0x1.a36e2eb1c432dp-14].
Definition default_search_range_epoch : list PyVal := [VInt 1; VInt 6].
Definition default_search_list_batch : list PyVal :=
  [VInt 4; VInt 8; VInt 16; VInt 32; VInt 64].

(** [list(range(a, b))] on dynamically typed bounds. *)
Definition range_list (a b : PyVal) : Res Err (list PyVal) :=
  match py_index a, py_index b with
  | Some lo, Some hi => Ok (VInt <$> py_range lo hi)
  | _, _ => Raise (TypeError "object cannot be interpreted as an integer")
  end.

(** Lines 158 to 167 of [train]: the defaults, the two length
    assertions and the search space. *)
Definition define_search_space
    (search_range_lr search_range_epoch search_list_batch : option (list PyVal))
  : Res Err (PyDict.t string Domain) :=
  let search_range_lr := default default_search_range_lr search_range_lr in
  if negb (bool_decide (length search_range_lr = 2%nat)) then
    Raise (AssertionError "len(search_range_lr) should be 2: " search_range_lr)
  else
  let search_range_epoch :=
    default default_search_range_epoch search_range_epoch in
  if negb (bool_decide (length search_range_epoch = 2%nat)) then
    Raise (AssertionError "len(search_range_epoch) should be 2: "
             search_range_epoch)
  else
  let search_list_batch :=
    default default_search_list_batch search_list_batch in
  match search_range_lr, search_range_epoch with
  | [lr0; lr1], [e0; e1] =>
      match range_list e0 e1 with
      | Raise e => Raise e
      | Ok epochs =>
          Ok (PyDict.of_items
                [("learning_rate", Loguniform lr0 lr1);
                 ("num_train_epochs", Choice epochs);
                 ("per_device_train_batch_size", Choice search_list_batch)])
      end
  | _, _ => Raise (TypeError "list index out of range")
  end.
End search_space.

(** ** The label mapping *)

(** [{v: k for k, v in label_to_id.items()}] (line 54). *)
Definition invert_labels (label_to_id : PyDict.t string Z) : PyDict.t Z string :=
  PyDict.of_items ((fun kv => (kv.2, kv.1)) <$> label_to_id).

(** ** The state-and-exception monad

    [M Err S A]: a computation over a state [S] that returns an [A] or
    raises an [Err]; the state reached is returned in both cases. *)
Definition M (Err S A : Type) : Type := S -> Res Err A * S.

Section monad.
Context {Err S : Type}.

Definition ret {A : Type} (a : A) : M Err S A := fun s => (Ok a, s).

Definition bind {A B : Type} (m : M Err S A) (k : A -> M Err S B)
  : M Err S B :=
  fun s =>
    match m s with
    | (Raise e, s') => (Raise e, s')
    | (Ok a, s') => k a s'
    end.

Definition raise {A : Type} (e : Err) : M Err S A := fun s => (Raise e, s).

Definition gets {A : Type} (f : S -> A) : M Err S A := fun s => (Ok (f s), s).

Definition modify (f : S -> S) : M Err S unit := fun s => (Ok tt, f s).

Definition lift_res {A : Type} (r : Res Err A) : M Err S A :=
  fun s => (r, s).

(** [if v is not None: <assign v>]. *)
Definition when_given {A : Type} (v : option A) (k : A -> M Err S unit)
  : M Err S unit :=
  match v with
  | Some a => k a
  | None => ret tt
  end.

(** A [for] loop over a list. *)
Fixpoint for_each {A : Type} (l : list A) (body : A -> M Err S unit)
  : M Err S unit :=
  match l with
  | [] => ret tt
  | x :: l' => bind (body x) (fun _ => for_each l' body)
  end.
End monad.

(** A computation over a component of the state, run on the whole. *)
Definition zoom {Err S T A : Type} (proj : S -> T) (inj : T -> S -> S)
    (m : M Err T A) : M Err S A :=
  fun s => let '(r, t') := m (proj s) in (r, inj t' s).

Notation "'let*' x ':=' m 'in' k" := (bind m (fun x => k))
  (at level 10, x name, m at level 100, k at level 200).
Notation "m ';;;' k" := (bind m (fun _ => k))
  (at level 100, k at level 200, right associativity).

(** ** The world outside the class *)

(** What a path holds. *)
Inductive Entry : Type :=
| File (content : string)
| Dir.

(** The model configuration handed to the model provider: the dict
    [{'label2id': ..., 'id2label': ..., 'problem_type': ...}], whose last
    key is present in multi-label mode only. *)
Record ModelConfig : Type := {
  label2id : PyDict.t string Z;
  id2label : PyDict.t Z string;
  problem_type : option string
}.

(** The keyword arguments of a call to [load_model]. *)
Record LoadModelArgs : Type := {
  lm_model : string;
  lm_task : string;
  lm_use_auth_token : bool;
  lm_config : ModelConfig;
  lm_return_dict : bool;
  lm_model_only : bool
}.

(** The keyword arguments of [get_readme]. *)
Record ReadmeArgs : Type := {
  rm_model_name : string;
  rm_metric_file : string;
  rm_dataset_name : option string;
  rm_dataset_type : option string;
  rm_language_model : string;
  rm_split_test : option string;
  rm_split_validation : option string;
  rm_split_train : option string
}.

(** The keyword arguments of [Trainer.hyperparameter_search]. *)
Record SearchCall : Type := {
  hp_space : PyDict.t string Domain;
  local_dir : string;
  direction : string;
  backend : string;
  n_trials : Z;
  resources_per_trial : PyDict.t string Z
}.

(** The effects of the class on the outside, in the order they happen:
    calls to the model provider, the training engine, the file system, the
    hub and the shell, and attribute updates of the engine's
    [TrainingArguments] object. *)
Inductive Event : Type :=
| EvLoadModel (args : LoadModelArgs)
| EvDatasetMap (max_length : Z)
| EvMakedirs (path : string)
| EvTrainerInit (args : PyDict.t string PyVal)
| EvHyperparameterSearch (call : SearchCall)
| EvWriteFile (path content : string)
| EvSetattr (name : string) (v : PyVal)
| EvTrain (args : PyDict.t string PyVal)
| EvSaveModel (path : string)
| EvEvaluate (args : PyDict.t string PyVal)
| EvCreateRepo (name organization : string)
| EvGetReadme (args : ReadmeArgs)
| EvCopy (src dst : string)
| EvSystem (command : string) (status : Z).

Record World : Type := {
  fs : gmap string Entry;
  trace : list Event
}.

Definition set_fs (f : gmap string Entry) (w : World) : World :=
  {| fs := f; trace := trace w |}.

Definition add_event (e : Event) (w : World) : World :=
  {| fs := fs w; trace := trace w ++ [e] |}.

(** [os.path.exists]. *)
Definition path_exists (p : string) (w : World) : bool :=
  bool_decide (is_Some (fs w !! p)).

(** ** The external collaborators *)

(** The objects of the external libraries are opaque. *)
Class ExtTypes : Type := {
  Model : Type;
  Config : Type;
  Tokenizer : Type;
  RawData : Type;
  Split : Type;
  Labels : Type;
  Metric : Type;
  ExtErr : Type
}.

(** What the prediction step hands to the metrics: a list of 0/1 rows
    (multi-label) or one class index per example (single-label). *)
Inductive Predictions : Type :=
| PredRows (rows : list (list Z))
| PredClasses (classes : list Z).

Section types.
Context {T : ExtTypes}.

Definition Err : Type := PyError ExtErr.

(** [eval_pred]: the logits, one row per example, and the references. *)
Definition EvalPred : Type := list (list float) * Labels.

Definition ComputeMetrics : Type :=
  EvalPred -> Res Err (PyDict.t string PyVal).

(** A [transformers.Trainer] as this class builds it.  [t_model_init] is
    the call that the [model_init] lambda makes when the engine invokes
    it. *)
Record TrainerObj : Type := {
  t_model : Model;
  t_args : PyDict.t string PyVal;
  t_train_dataset : option Split;
  t_eval_dataset : option Split;
  t_compute_metrics : ComputeMetrics;
  t_model_init : option LoadModelArgs
}.

Definition set_t_args (a : PyDict.t string PyVal) (tr : TrainerObj)
  : TrainerObj :=
  {| t_model := t_model tr; t_args := a;
     t_train_dataset := t_train_dataset tr;
     t_eval_dataset := t_eval_dataset tr;
     t_compute_metrics := t_compute_metrics tr;
     t_model_init := t_model_init tr |}.
End types.

(** An external call either raises or returns; one with side effects also
    returns the file system it leaves behind. *)
Class Externals {T : ExtTypes} : Type := {
  (** [..util.load_model], which returns [(config, tokenizer, model)], or
      the model alone under [model_only=True] *)
  load_model :
    LoadModelArgs -> gmap string Entry -> ExtErr + (Config * Tokenizer * Model);
  load_model_only : LoadModelArgs -> gmap string Entry -> ExtErr + Model;
  (** [dataset.map(lambda x: tokenizer(x["text"], ...), batched=True)] *)
  dataset_map : RawData -> Tokenizer -> Z -> ExtErr + PyDict.t string Split;
  (** [datasets.load_metric(name, config)] and [metric.compute] *)
  load_metric : string -> option string -> ExtErr + Metric;
  metric_compute :
    Metric -> Predictions -> Labels -> option string ->
    ExtErr + PyDict.t string PyVal;
  (** [math.exp], which raises [OverflowError] *)
  math_exp : float -> ExtErr + float;
  (** [np.argmax(logits, axis=-1)] *)
  np_argmax : list (list float) -> ExtErr + list Z;
  (** [os.makedirs(path, exist_ok=True)] *)
  os_makedirs :
    string -> gmap string Entry -> (ExtErr + unit) * gmap string Entry;
  (** whether [open(path, 'w')] succeeds *)
  open_write : string -> gmap string Entry -> ExtErr + unit;
  (** [json.dumps(obj, indent=indent)], also what [json.dump] writes *)
  json_dumps : option Z -> PyDict.t string PyVal -> ExtErr + string;
  (** [TrainingArguments(...)] and [Trainer(...)], which validate *)
  training_arguments : PyDict.t string PyVal -> ExtErr + unit;
  trainer_init : TrainerObj -> ExtErr + unit;
  (** [multiprocessing.cpu_count()] and [torch.cuda.device_count()] *)
  cpu_count : Z;
  cuda_device_count : Z;
  (** [trainer.hyperparameter_search(...)]: the [hyperparameters] of the
      best run *)
  hyperparameter_search :
    TrainerObj -> SearchCall -> gmap string Entry ->
    (ExtErr + PyDict.t string PyVal) * gmap string Entry;
  (** [trainer.train()], [trainer.save_model(path)], [trainer.evaluate()] *)
  trainer_train :
    TrainerObj -> gmap string Entry -> (ExtErr + unit) * gmap string Entry;
  trainer_save_model :
    TrainerObj -> string -> gmap string Entry ->
    (ExtErr + unit) * gmap string Entry;
  trainer_evaluate :
    TrainerObj -> gmap string Entry -> ExtErr + PyDict.t string PyVal;
  (** [huggingface_hub.create_repo(name, organization=..., exist_ok=True)] *)
  create_repo : string -> string -> ExtErr + string;
  (** [.readme_template.get_readme] *)
  get_readme : ReadmeArgs -> gmap string Entry -> ExtErr + string;
  (** [shutil.copy2(src, dst)] *)
  shutil_copy2 :
    string -> string -> gmap string Entry ->
    (ExtErr + unit) * gmap string Entry;
  (** [os.system(command)]: the exit status; it does not raise *)
  os_system : string -> gmap string Entry -> Z * gmap string Entry
}.

(** ** The class [TrainerTextClassification] *)

Section orchestrator.
Context {T : ExtTypes} {X : Externals}.

(** *** Calls to the outside *)

Definition from_ext {A : Type} (who : string) (r : ExtErr + A) : Res Err A :=
  match r with
  | inl e => Raise (External who e)
  | inr a => Ok a
  end.

Definition log (e : Event) : M Err World unit := modify (add_event e).

(** A call that reads the file system. *)
Definition ask {A : Type} (who : string)
    (f : gmap string Entry -> ExtErr + A) : M Err World A :=
  fun w => (from_ext who (f (fs w)), w).

(** A call that may change the file system, also when it raises. *)
Definition call {A : Type} (who : string)
    (f : gmap string Entry -> (ExtErr + A) * gmap string Entry)
  : M Err World A :=
  fun w => let '(r, f') := f (fs w) in (from_ext who r, set_fs f' w).

(** [with open(path, 'w') as f:], which creates or truncates the file. *)
Definition open_w (path : string) : M Err World unit :=
  ask "open" (open_write path) ;;;
  modify (fun w => set_fs (<[path := File ""]> (fs w)) w).

Definition write (path content : string) : M Err World unit :=
  modify (fun w => set_fs (<[path := File content]> (fs w)) w) ;;;
  log (EvWriteFile path content).

(** [with open(path, 'w') as f: json.dump(obj, f)]. *)
Definition dump_json (path : string) (obj : PyDict.t string PyVal)
  : M Err World unit :=
  open_w path ;;;
  let* text := lift_res (from_ext "json.dump" (json_dumps None obj)) in
  write path text.

(** *** Metrics (lines 81 to 113) *)

Definition sigmoid (x : float) : Res Err float :=
  res_bind (from_ext "math.exp" (math_exp (- x)%float)) (fun e =>
  let d := (1 + e)%float in
  if (d =? 0)%float then Raise ZeroDivisionError else Ok (1 / d)%float).

(** [int(sigmoid(j) > 0.5)]. *)
Definition threshold (j : float) : Res Err Z :=
  res_bind (sigmoid j) (fun s => Ok (Z.b2z (0.5 <? s)%float)).

(** The prediction step shared by the two metric functions. *)
Definition predict (multi_label : bool) (logits : list (list float))
  : Res Err Predictions :=
  if multi_label then
    res_bind (res_map (fun i => res_map threshold i) logits) (fun rows =>
    Ok (PredRows rows))
  else
    res_bind (from_ext "np.argmax" (np_argmax logits)) (fun classes =>
    Ok (PredClasses classes)).

(** [d[key]]. *)
Definition getitem {V : Type} (d : PyDict.t string V) (key : string)
  : Res Err V :=
  match PyDict.get key d with
  | Some v => Ok v
  | None => Raise (KeyError (Some key))
  end.

Definition compute (m : Metric) (p : Predictions) (labels : Labels)
    (average : option string) : Res Err (PyDict.t string PyVal) :=
  from_ext "metric.compute" (metric_compute m p labels average).

Definition compute_metric_search_of (multi_label : bool) (metric_f1 : Metric)
  : ComputeMetrics :=
  fun '(logits, labels) =>
    res_bind (predict multi_label logits) (fun predictions =>
    compute metric_f1 predictions labels (Some "micro")).

Definition compute_metric_all_of (multi_label : bool)
    (metric_accuracy metric_f1 : Metric) : ComputeMetrics :=
  fun '(logits, labels) =>
    res_bind (predict multi_label logits) (fun predictions =>
    res_bind (compute metric_f1 predictions labels (Some "micro")) (fun r1 =>
    res_bind (getitem r1 "f1") (fun f1 =>
    res_bind (compute metric_f1 predictions labels (Some "macro")) (fun r2 =>
    res_bind (getitem r2 "f1") (fun f1_macro =>
    res_bind (compute metric_accuracy predictions labels None) (fun r3 =>
    res_bind (getitem r3 "accuracy") (fun accuracy =>
    Ok (PyDict.of_items
          [("f1", f1); ("f1_macro", f1_macro); ("accuracy", accuracy)])))))))).

Definition get_metrics (multi_label : bool)
  : Res Err (ComputeMetrics * ComputeMetrics) :=
  let cfg := if multi_label then Some "multilabel" else None in
  res_bind (from_ext "load_metric" (load_metric "accuracy" cfg))
    (fun metric_accuracy =>
  res_bind (from_ext "load_metric" (load_metric "f1" cfg)) (fun metric_f1 =>
  Ok (compute_metric_search_of multi_label metric_f1,
      compute_metric_all_of multi_label metric_accuracy metric_f1))).

(** *** The object *)

(** A [DatasetDict], which may carry the attributes [dataset_name] and
    [dataset_type] ([hasattr]). *)
Record Dataset : Type := {
  ds_raw : RawData;
  attr_dataset_name : option (option string);
  attr_dataset_type : option (option string)
}.

(** The attributes that no method assigns after [__init__]. *)
Record Fixed : Type := {
  dataset : Dataset;
  language_model : string;
  use_auth_token : bool;
  multi_label : bool;
  model_config : ModelConfig;
  config : Config;
  tokenizer : Tokenizer;
  max_length : Z;
  tokenized_datasets : PyDict.t string Split;
  compute_metric_search : ComputeMetrics;
  compute_metric_all : ComputeMetrics;
  best_model_path : string;
  best_run_hyperparameters_path : string
}.

(** [self]. *)
Record Trainer : Type := {
  fixed : Fixed;
  dataset_name : option string;
  dataset_type : option string;
  output_dir : option string;
  model : Model;
  split_test : option string;
  split_train : option string;
  split_validation : option string
}.

Definition set_dataset_name (v : option string) (t : Trainer) : Trainer :=
  {| fixed := fixed t; dataset_name := v; dataset_type := dataset_type t;
     output_dir := output_dir t; model := model t;
     split_test := split_test t; split_train := split_train t;
     split_validation := split_validation t |}.

Definition set_dataset_type (v : option string) (t : Trainer) : Trainer :=
  {| fixed := fixed t; dataset_name := dataset_name t; dataset_type := v;
     output_dir := output_dir t; model := model t;
     split_test := split_test t; split_train := split_train t;
     split_validation := split_validation t |}.

Definition set_output_dir (v : option string) (t : Trainer) : Trainer :=
  {| fixed := fixed t; dataset_name := dataset_name t;
     dataset_type := dataset_type t; output_dir := v; model := model t;
     split_test := split_test t; split_train := split_train t;
     split_validation := split_validation t |}.

Definition set_model (v : Model) (t : Trainer) : Trainer :=
  {| fixed := fixed t; dataset_name := dataset_name t;
     dataset_type := dataset_type t; output_dir := output_dir t; model := v;
     split_test := split_test t; split_train := split_train t;
     split_validation := split_validation t |}.

Definition set_split_test (v : option string) (t : Trainer) : Trainer :=
  {| fixed := fixed t; dataset_name := dataset_name t;
     dataset_type := dataset_type t; output_dir := output_dir t;
     model := model t; split_test := v; split_train := split_train t;
     split_validation := split_validation t |}.

Definition set_split_train (v : option string) (t : Trainer) : Trainer :=
  {| fixed := fixed t; dataset_name := dataset_name t;
     dataset_type := dataset_type t; output_dir := output_dir t;
     model := model t; split_test := split_test t; split_train := v;
     split_validation := split_validation t |}.

Definition set_split_validation (v : option string) (t : Trainer) : Trainer :=
  {| fixed := fixed t; dataset_name := dataset_name t;
     dataset_type := dataset_type t; output_dir := output_dir t;
     model := model t; split_test := split_test t;
     split_train := split_train t; split_validation := v |}.

(** The state a method runs on. *)
Record St : Type := {
  self : Trainer;
  world : World
}.

Definition self_get {A : Type} (f : Trainer -> A) : M Err St A :=
  gets (fun s => f (self s)).

Definition self_set (upd : Trainer -> Trainer) : M Err St unit :=
  modify (fun s => {| self := upd (self s); world := world s |}).

Definition in_world {A : Type} (m : M Err World A) : M Err St A :=
  zoom world (fun w s => {| self := self s; world := w |}) m.

(** [os.path.join(a, b)] where [a] may be [None]. *)
Definition join_opt (a : option string) (b : string) : Res Err string :=
  match a with
  | Some a => Ok (pj a b)
  | None =>
      Raise (TypeError
               "expected str, bytes or os.PathLike object, not NoneType")
  end.

(** [assert self.output_dir is not None, msg], after which the methods
    read [self.output_dir]. *)
Definition assert_output_dir (msg : string) : M Err St string :=
  let* od := self_get output_dir in
  match od with
  | Some d => ret d
  | None => raise (AssertionError msg [])
  end.

(** The property [export_file] (lines 76 to 79). *)
Definition export_file : M Err St string :=
  let* d := assert_output_dir "output_dir is not defined" in
  ret (d +:+ "/metric.json").

(** [self.tokenized_datasets[split]]. *)
Definition tokenized_split (split : option string) : M Err St Split :=
  let* ds := self_get (fun t => tokenized_datasets (fixed t)) in
  match split with
  | Some name => lift_res (getitem ds name)
  | None => raise (KeyError None)
  end.

(** *** [__init__] (lines 26 to 74) *)

Record InitOptions : Type := {
  i_max_length : Z;
  i_split_test : option string;
  i_split_train : option string;
  i_split_validation : option string;
  i_use_auth_token : bool;
  i_multi_label : bool;
  i_dataset_name : option string;
  i_dataset_type : option string;
  i_output_dir : option string
}.

Definition init_defaults : InitOptions :=
  {| i_max_length := 128; i_split_test := None; i_split_train := None;
     i_split_validation := None; i_use_auth_token := false;
     i_multi_label := false; i_dataset_name := None;
     i_dataset_type := None; i_output_dir := None |}.

Definition make_model_config (label_to_id : PyDict.t string Z)
    (multi_label : bool) : ModelConfig :=
  {| label2id := label_to_id;
     id2label := invert_labels label_to_id;
     problem_type :=
       if multi_label then Some "multi_label_classification" else None |}.

Definition init (language_model : string) (dataset : Dataset)
    (label_to_id : PyDict.t string Z) (o : InitOptions)
  : M Err World Trainer :=
  let dataset_name :=
    match attr_dataset_name dataset with
    | Some v => v
    | None => i_dataset_name o
    end in
  let dataset_type :=
    match attr_dataset_type dataset with
    | Some v => v
    | None => i_dataset_type o
    end in
  let output_dir := i_output_dir o in
  let model_config := make_model_config label_to_id (i_multi_label o) in
  let args :=
    {| lm_model := language_model; lm_task := "sequence_classification";
       lm_use_auth_token := i_use_auth_token o; lm_config := model_config;
       lm_return_dict := false; lm_model_only := false |} in
  log (EvLoadModel args) ;;;
  let* bundle := ask "load_model" (load_model args) in
  log (EvDatasetMap (i_max_length o)) ;;;
  let* tokenized :=
    lift_res (from_ext "dataset.map"
                (dataset_map (ds_raw dataset) bundle.1.2 (i_max_length o))) in
  let* metrics := lift_res (get_metrics (i_multi_label o)) in
  let* best_model_path := lift_res (join_opt output_dir "best_model") in
  let* best_run_hyperparameters_path :=
    lift_res (join_opt output_dir "best_run_hyperparameters.json") in
  ret {| fixed :=
           {| dataset := dataset; language_model := language_model;
              use_auth_token := i_use_auth_token o;
              multi_label := i_multi_label o;
              model_config := model_config;
              config := bundle.1.1; tokenizer := bundle.1.2;
              max_length := i_max_length o;
              tokenized_datasets := tokenized;
              compute_metric_search := metrics.1;
              compute_metric_all := metrics.2;
              best_model_path := best_model_path;
              best_run_hyperparameters_path :=
                best_run_hyperparameters_path |};
         dataset_name := dataset_name; dataset_type := dataset_type;
         output_dir := output_dir; model := bundle.2;
         split_test := i_split_test o; split_train := i_split_train o;
         split_validation := i_split_validation o |}.

(** *** [train] (lines 115 to 191) *)

Record TrainArgs : Type := {
  tr_output_dir : option string;
  tr_random_seed : Z;
  tr_eval_step : Z;
  tr_n_trials : Z;
  tr_split_train : option string;
  tr_split_validation : option string;
  tr_parallel_cpu : bool;
  tr_search_range_lr : option (list PyVal);
  tr_search_range_epoch : option (list PyVal);
  tr_search_list_batch : option (list PyVal);
  tr_ray_result_dir : string
}.

Definition train_defaults : TrainArgs :=
  {| tr_output_dir := None; tr_random_seed := 42; tr_eval_step := 100;
     tr_n_trials := 10; tr_split_train := None;
     tr_split_validation := None; tr_parallel_cpu := false;
     tr_search_range_lr := None; tr_search_range_epoch := None;
     tr_search_list_batch := None; tr_ray_result_dir := "ray_result" |}.

(** Lines 127 to 155: the output location, the splits and the
    [Trainer]. *)
Definition train_setup (a : TrainArgs) : M Err St TrainerObj :=
  when_given (tr_output_dir a) (fun v => self_set (set_output_dir (Some v))) ;;;
  let* od := assert_output_dir "output_dir should be specified." in
  in_world (log (EvMakedirs od) ;;; call "os.makedirs" (os_makedirs od)) ;;;
  when_given (tr_split_train a)
    (fun v => self_set (set_split_train (Some v))) ;;;
  when_given (tr_split_validation a)
    (fun v => self_set (set_split_validation (Some v))) ;;;
  let* model := self_get model in
  let args :=
    PyDict.of_items
      [("output_dir", VStr od); ("evaluation_strategy", VStr "steps");
       ("eval_steps", VInt (tr_eval_step a));
       ("seed", VInt (tr_random_seed a))] in
  lift_res (from_ext "TrainingArguments" (training_arguments args)) ;;;
  let* split_train := self_get split_train in
  let* train_dataset := tokenized_split split_train in
  let* split_validation := self_get split_validation in
  let* eval_dataset := tokenized_split split_validation in
  let* compute_metrics := self_get (fun t => compute_metric_search (fixed t)) in
  let* fx := self_get fixed in
  let trainer :=
    {| t_model := model; t_args := args;
       t_train_dataset := Some train_dataset;
       t_eval_dataset := Some eval_dataset;
       t_compute_metrics := compute_metrics;
       t_model_init :=
         Some {| lm_model := language_model fx;
                 lm_task := "sequence_classification";
                 lm_use_auth_token := use_auth_token fx;
                 lm_config := model_config fx;
                 lm_return_dict := true; lm_model_only := false |} |} in
  in_world (log (EvTrainerInit args)) ;;;
  lift_res (from_ext "Trainer" (trainer_init trainer)) ;;;
  ret trainer.

(** Lines 180 to 188: what [train] does with the best run. *)
Definition finetune_best (trainer : TrainerObj)
    (hyperparameters : PyDict.t string PyVal) : M Err St unit :=
  let* hp_path :=
    self_get (fun t => best_run_hyperparameters_path (fixed t)) in
  in_world (dump_json hp_path hyperparameters) ;;;
  in_world (for_each hyperparameters (fun nv => log (EvSetattr nv.1 nv.2))) ;;;
  let args :=
    fold_left (fun d nv => PyDict.set nv.1 nv.2 d) hyperparameters
      (t_args trainer) in
  in_world (log (EvSetattr "evaluation_strategy" (VStr "no"))) ;;;
  let args := PyDict.set "evaluation_strategy" (VStr "no") args in
  let trainer := set_t_args args trainer in
  in_world (log (EvTrain args) ;;;
            call "Trainer.train" (trainer_train trainer)) ;;;
  let* path := self_get (fun t => best_model_path (fixed t)) in
  in_world (log (EvSaveModel path) ;;;
            call "Trainer.save_model" (trainer_save_model trainer path)).

Definition train (a : TrainArgs) : M Err St unit :=
  let* trainer := train_setup a in
  let* search_space :=
    lift_res (define_search_space (tr_search_range_lr a)
                (tr_search_range_epoch a) (tr_search_list_batch a)) in
  let resources :=
    PyDict.of_items
      [("cpu", if tr_parallel_cpu a then cpu_count else 1);
       ("gpu", cuda_device_count)] in
  let search :=
    {| hp_space := search_space; local_dir := tr_ray_result_dir a;
       direction := "maximize"; backend := "ray";
       n_trials := tr_n_trials a; resources_per_trial := resources |} in
  let* hyperparameters :=
    in_world (log (EvHyperparameterSearch search) ;;;
              call "Trainer.hyperparameter_search"
                (hyperparameter_search trainer search)) in
  finetune_best trainer hyperparameters.

(** *** [evaluate] (lines 193 to 217) *)

(** The [model] argument of the [load_model] call of line 201. *)
Definition model_source (t : Trainer) (w : World) : string :=
  if negb (path_exists (best_model_path (fixed t)) w)
  then language_model (fixed t)
  else best_model_path (fixed t).

Definition evaluate (split_test' output_dir' : option string)
  : M Err St (PyDict.t string PyVal) :=
  when_given output_dir' (fun v => self_set (set_output_dir (Some v))) ;;;
  let* od := assert_output_dir "output_dir should be specified." in
  when_given split_test' (fun v => self_set (set_split_test (Some v))) ;;;
  let* fx := self_get fixed in
  let* source := gets (fun s => model_source (self s) (world s)) in
  let args :=
    {| lm_model := source; lm_task := "sequence_classification";
       lm_use_auth_token := use_auth_token fx; lm_config := model_config fx;
       lm_return_dict := false; lm_model_only := true |} in
  let* model :=
    in_world (log (EvLoadModel args) ;;;
              ask "load_model" (load_model_only args)) in
  self_set (set_model model) ;;;
  let targs :=
    PyDict.of_items
      [("output_dir", VStr od); ("evaluation_strategy", VStr "no")] in
  lift_res (from_ext "TrainingArguments" (training_arguments targs)) ;;;
  let* split := self_get split_test in
  let* eval_dataset := tokenized_split split in
  let trainer :=
    {| t_model := model; t_args := targs; t_train_dataset := None;
       t_eval_dataset := Some eval_dataset;
       t_compute_metrics := compute_metric_all fx;
       t_model_init := None |} in
  in_world (log (EvTrainerInit targs)) ;;;
  lift_res (from_ext "Trainer" (trainer_init trainer)) ;;;
  let* metrics :=
    in_world (log (EvEvaluate targs) ;;;
              ask "Trainer.evaluate" (trainer_evaluate trainer)) in
  let result := PyDict.of_items metrics in
  lift_res (from_ext "json.dumps" (json_dumps (Some 4) result)) ;;;
  let* path := export_file in
  in_world (dump_json path result) ;;;
  ret result.

(** *** [push_to_hub] (lines 219 to 262) *)

Record PushArgs : Type := {
  p_split_train : option string;
  p_split_validation : option string;
  p_split_test : option string;
  p_dataset_name : option string;
  p_dataset_type : option string;
  p_output_dir : option string
}.

Definition push_defaults : PushArgs :=
  {| p_split_train := None; p_split_validation := None;
     p_split_test := None; p_dataset_name := None;
     p_dataset_type := None; p_output_dir := None |}.

(** The command line of line 261. *)
Definition publish_command (model_alias : string) : string :=
  "cd " +:+ model_alias +:+
  " && git lfs install && git add . && git commit -m 'model update' && git push && cd ../".

(** Lines 228 to 259: everything before the shell is invoked. *)
Definition push_prepare (hf_organization model_alias : string) (a : PushArgs)
  : M Err St unit :=
  when_given (p_dataset_name a)
    (fun v => self_set (set_dataset_name (Some v))) ;;;
  when_given (p_dataset_type a)
    (fun v => self_set (set_dataset_type (Some v))) ;;;
  when_given (p_output_dir a) (fun v => self_set (set_output_dir (Some v))) ;;;
  assert_output_dir "output_dir should be specified." ;;;
  when_given (p_split_train a)
    (fun v => self_set (set_split_train (Some v))) ;;;
  when_given (p_split_validation a)
    (fun v => self_set (set_split_validation (Some v))) ;;;
  when_given (p_split_test a) (fun v => self_set (set_split_test (Some v))) ;;;
  in_world (log (EvCreateRepo model_alias hf_organization)) ;;;
  lift_res (from_ext "create_repo" (create_repo model_alias hf_organization)) ;;;
  let* metric_file := export_file in
  let* t := self_get id in
  let args :=
    {| rm_model_name := hf_organization +:+ "/" +:+ model_alias;
       rm_metric_file := metric_file;
       rm_dataset_name := dataset_name t;
       rm_dataset_type := dataset_type t;
       rm_language_model := language_model (fixed t);
       rm_split_test := split_test t;
       rm_split_validation := split_validation t;
       rm_split_train := split_train t |} in
  let* readme :=
    in_world (log (EvGetReadme args) ;;; ask "get_readme" (get_readme args)) in
  let readme_path := model_alias +:+ "/README.md" in
  in_world (open_w readme_path ;;; write readme_path readme) ;;;
  let hp_path := best_run_hyperparameters_path (fixed t) in
  let* present := in_world (gets (path_exists hp_path)) in
  if present : bool then
    let dst := pj model_alias "best_run_hyperparameters.json" in
    in_world (log (EvCopy hp_path dst) ;;;
              call "shutil.copy2" (shutil_copy2 hp_path dst))
  else ret tt.

(** Lines 260 and 261: [os.system(command)] as an expression statement;
    the status it returns is dropped. *)
Definition run_shell (command : string) : M Err World Z :=
  fun w =>
    let '(status, f') := os_system command (fs w) in
    (Ok status, add_event (EvSystem command status) (set_fs f' w)).

Definition push_to_hub (hf_organization model_alias : string) (a : PushArgs)
  : M Err St unit :=
  push_prepare hf_organization model_alias a ;;;
  in_world (run_shell (publish_command model_alias)) ;;;
  ret tt.
End orchestrator.

(** ** A toy world

    Concrete collaborators on which the class runs by computation: a model
    is the name it was loaded from, a split is its name.  [evaluate] of
    the toy engine does what [transformers.Trainer.evaluate] does with the
    mapping that [compute_metrics] returns when [prefix] is set: it adds
    the loss and prefixes every key with [eval_]; otherwise it returns the
    mapping as it is.  The shell returns the exit status [status]. *)
Module Toy.
#[export] Instance types : ExtTypes :=
  {| Model := string; Config := unit; Tokenizer := unit;
     RawData := list string; Split := string; Labels := unit;
     Metric := string; ExtErr := string |}.

Definition eval_pred : EvalPred :=
  ([[0.5; -1]; [2; 0.25]; [-3; -0.125]]%float, tt).

Definition engine_evaluate (prefix : bool) (tr : TrainerObj)
    (f : gmap string Entry) : string + PyDict.t string PyVal :=
  match t_compute_metrics tr eval_pred with
  | Raise _ => inl "compute_metrics raised"
  | Ok m =>
      inr (if prefix
           then ("eval_loss", VFloat 0.5)
                  :: ((fun kv => ("eval_" +:+ kv.1, kv.2)) <$> m)
           else m)
  end.

(** A stand-in for [json.dumps]: the keys, in order. *)
Definition show_keys (d : PyDict.t string PyVal) : string :=
  "{" +:+ String.concat ", " (PyDict.keys d) +:+ "}".

Definition best_run : PyDict.t string PyVal :=
  [("learning_rate", VFloat 0x1p-15); ("num_train_epochs", VInt 3);
   ("per_device_train_batch_size", VInt 16)].

Definition externals (prefix : bool) (status : Z) : Externals :=
  {| load_model := fun a _ => inr (tt, tt, lm_model a);
     load_model_only := fun a _ => inr (lm_model a);
     dataset_map := fun raw _ _ => inr ((fun n => (n, n)) <$> raw);
     load_metric := fun name _ => inr name;
     metric_compute := fun m _ _ average =>
       inr [(m, VFloat (if average is Some "macro" then 0.5 else 0.75))];
     math_exp := fun x => inr (if (x <? 0)%float then 0.5 else 2)%float;
     np_argmax := fun logits => inr ((fun _ => 0) <$> logits);
     os_makedirs := fun p f => (inr tt, <[p := Dir]> f);
     open_write := fun _ _ => inr tt;
     json_dumps := fun _ d => inr (show_keys d);
     training_arguments := fun _ => inr tt;
     trainer_init := fun _ => inr tt;
     cpu_count := 8;
     cuda_device_count := 0;
     hyperparameter_search := fun _ _ f => (inr best_run, f);
     trainer_train := fun _ f => (inr tt, f);
     trainer_save_model := fun _ p f => (inr tt, <[p := Dir]> f);
     trainer_evaluate := engine_evaluate prefix;
     create_repo := fun name org => inr ("https://hub/" +:+ org +:+ "/" +:+ name);
     get_readme := fun a _ => inr ("# " +:+ rm_model_name a);
     shutil_copy2 := fun src dst f =>
       match f !! src with
       | Some e => (inr tt, <[dst := e]> f)
       | None => (inl "No such file", f)
       end;
     os_system := fun _ f => (status, f) |}.

Definition dataset : Dataset :=
  {| ds_raw := ["train"; "validation"; "test"];
     attr_dataset_name := None; attr_dataset_type := None |}.

Definition labels : PyDict.t string Z :=
  [("negative", 0); ("neutral", 1); ("positive", 2)].

Definition empty_world : World := {| fs := ∅; trace := [] |}.

Definition options : InitOptions :=
  {| i_max_length := 128; i_split_test := Some "test";
     i_split_train := Some "train"; i_split_validation := Some "validation";
     i_use_auth_token := false; i_multi_label := false;
     i_dataset_name := None; i_dataset_type := None;
     i_output_dir := Some "out" |}.

(** The object that [__init__] builds from these, and the state it is
    in when the world holds nothing else. *)
Definition trainer (X : Externals) : Trainer :=
  {| fixed :=
       @Build_Fixed types dataset "roberta" false false
         (make_model_config labels false) tt tt 128
         [("train", "train"); ("validation", "validation"); ("test", "test")]
         (compute_metric_search_of false "f1")
         (compute_metric_all_of false "accuracy" "f1")
         "out/best_model" "out/best_run_hyperparameters.json";
     dataset_name := None; dataset_type := None; output_dir := Some "out";
     model := "roberta"; split_test := Some "test";
     split_train := Some "train"; split_validation := Some "validation" |}.

Definition built_world : World :=
  {| fs := ∅;
     trace :=
       [EvLoadModel
          {| lm_model := "roberta"; lm_task := "sequence_classification";
             lm_use_auth_token := false;
             lm_config := make_model_config labels false;
             lm_return_dict := false; lm_model_only := false |};
        EvDatasetMap 128] |}.

Definition built (X : Externals) : St :=
  {| self := trainer X; world := built_world |}.

(** The toy engine of the transformers library, with a shell whose
    command fails, and the engine that returns the metrics as they
    are. *)
Definition hub : Externals := externals true 256.
Definition plain : Externals := externals false 0.
End Toy.

(** ** Vocabulary of the properties *)

(** The derived mapping has as many entries as the label mapping and
    sends the id of every label back to the label. *)
Definition exact_inverse (label_to_id : PyDict.t string Z)
    (id_to_label : PyDict.t Z string) : Prop :=
  length id_to_label = length label_to_id ∧
  ∀ label i,
    PyDict.get label label_to_id = Some i →
    PyDict.get i id_to_label = Some label.

(** Modelled from the spec: reading the metric artifact back, that is
    [json.load(open(path))] with [loads] for the parser.  The class only
    writes the artifact; the reader is not part of it. *)
Definition read_json (loads : string → option (PyDict.t string PyVal))
    (path : string) (w : World) : option (PyDict.t string PyVal) :=
  match fs w !! path with
  | Some (File text) => loads text
  | _ => None
  end.

Definition is_search (e : Event) : Prop := ∃ c, e = EvHyperparameterSearch c.

Definition is_load (e : Event) : Prop := ∃ a, e = EvLoadModel a.

Section vocabulary.
Context {T : ExtTypes} {X : Externals}.

(** The objects of the class: built by [__init__] from the output
    location [d0], then changed by calls of its methods only, whatever
    their outcome and whatever happens to the world in between. *)
Inductive constructed (d0 : string) : Trainer → Prop :=
| constructed_init lm ds l2i o w t w' :
    i_output_dir o = Some d0 →
    init lm ds l2i o w = (Ok t, w') →
    constructed d0 t
| constructed_train a s r s' :
    constructed d0 (self s) →
    train a s = (r, s') →
    constructed d0 (self s')
| constructed_evaluate split od s r s' :
    constructed d0 (self s) →
    evaluate split od s = (r, s') →
    constructed d0 (self s')
| constructed_push org alias a s r s' :
    constructed d0 (self s) →
    push_to_hub org alias a s = (r, s') →
    constructed d0 (self s').
End vocabulary.

(** [wp m s Q]: whatever [m] does from the state [s], its outcome and the
    state it reaches satisfy [Q]. *)
Definition wp {Err S A : Type} (m : M Err S A) (s : S)
    (Q : Res Err A → S → Prop) : Prop :=
  ∀ r s', m s = (r, s') → Q r s'.

(** ** Outcomes of the methods

    What a run of each method leaves in the object and in the world,
    as the properties below state it. *)

Section outcomes.
Context {T : ExtTypes} {X : Externals}.

(** No search for hyperparameters is started among these events. *)
Definition no_search (evs : list Event) : Prop :=
  ∀ c, EvHyperparameterSearch c ∉ evs.

(** [if v is not None: self.attr = v]. *)
Definition assigned (set : option string → Trainer → Trainer)
    (v : option string) (t : Trainer) : Trainer :=
  match v with
  | Some _ => set v t
  | None => t
  end.

(** The object after the assignments of lines 127 to 134. *)
Definition train_self (a : TrainArgs) (t : Trainer) : Trainer :=
  assigned set_split_validation (tr_split_validation a)
    (assigned set_split_train (tr_split_train a)
       (assigned set_output_dir (tr_output_dir a) t)).

(** The attributes that [train] does not assign. *)
Definition kept (t t' : Trainer) : Prop :=
  fixed t' = fixed t ∧ model t' = model t ∧
  dataset_name t' = dataset_name t ∧ dataset_type t' = dataset_type t ∧
  split_test t' = split_test t.

(** The outcome of lines 127 to 155. *)
Definition setup_post (a : TrainArgs) (s : St) (r : Res Err TrainerObj)
    (s1 : St) : Prop :=
  kept (self s) (self s1) ∧
  match r with
  | Ok trainer =>
      ∃ d,
        self s1 = train_self a (self s) ∧
        output_dir (self s1) = Some d ∧
        os_makedirs d (fs (world s)) = (inr tt, fs (world s1)) ∧
        t_model trainer = model (self s) ∧
        t_compute_metrics trainer = compute_metric_search (fixed (self s)) ∧
        t_args trainer =
          PyDict.of_items
            [("output_dir", VStr d); ("evaluation_strategy", VStr "steps");
             ("eval_steps", VInt (tr_eval_step a));
             ("seed", VInt (tr_random_seed a))] ∧
        trace (world s1) =
          trace (world s) ++ [EvMakedirs d; EvTrainerInit (t_args trainer)]
  | Raise e =>
      ∃ evs,
        trace (world s1) = trace (world s) ++ evs ∧
        no_search evs ∧
        ∀ msg shown,
          e = AssertionError msg shown → msg = "output_dir should be specified."
  end.

(** The outcome of lines 180 to 188, run on the hyperparameters [hp] of
    the best trial. *)
Definition finetune_post (trainer : TrainerObj) (hp : PyDict.t string PyVal)
    (s : St) (r : Res Err unit) (s' : St) : Prop :=
  self s' = self s ∧
  (∀ msg shown, r ≠ Raise (AssertionError msg shown)) ∧
  ∃ evs,
    trace (world s') = trace (world s) ++ evs ∧
    no_search evs ∧
    (r = Ok tt →
     ∃ text f1 f2 f3 f4,
       json_dumps None hp = inr text ∧
       let args :=
         PyDict.set "evaluation_strategy" (VStr "no")
           (fold_left (fun d nv => PyDict.set nv.1 nv.2 d) hp (t_args trainer)) in
       trainer_train (set_t_args args trainer) f1 = (inr tt, f2) ∧
       trainer_save_model (set_t_args args trainer)
         (best_model_path (fixed (self s))) f3 = (inr tt, f4) ∧
       evs =
         [EvWriteFile (best_run_hyperparameters_path (fixed (self s))) text]
         ++ ((fun nv => EvSetattr nv.1 nv.2) <$> hp)
         ++ [EvSetattr "evaluation_strategy" (VStr "no");
             EvTrain args;
             EvSaveModel (best_model_path (fixed (self s)))]).

(** The search space of lines 158 to 167, from the arguments of [train]. *)
Definition train_search_space (a : TrainArgs)
  : Res Err (PyDict.t string Domain) :=
  define_search_space (tr_search_range_lr a) (tr_search_range_epoch a)
    (tr_search_list_batch a).

(** The search that [train] asks for, given the space. *)
Definition search_call (a : TrainArgs) (space : PyDict.t string Domain)
  : SearchCall :=
  {| hp_space := space; local_dir := tr_ray_result_dir a;
     direction := "maximize"; backend := "ray"; n_trials := tr_n_trials a;
     resources_per_trial :=
       PyDict.of_items
         [("cpu", if tr_parallel_cpu a then cpu_count else 1);
          ("gpu", cuda_device_count)] |}.

(** The arguments of the [load_model] call of lines 200 to 206, given
    the model to load. *)
Definition evaluate_load_args (source : string) (fx : Fixed) : LoadModelArgs :=
  {| lm_model := source; lm_task := "sequence_classification";
     lm_use_auth_token := use_auth_token fx; lm_config := model_config fx;
     lm_return_dict := false; lm_model_only := true |}.

(** The [Trainer] of lines 207 to 212. *)
Definition evaluate_trainer (m : Model) (d : string) (ds : Split) (fx : Fixed)
  : TrainerObj :=
  {| t_model := m;
     t_args :=
       PyDict.of_items
         [("output_dir", VStr d); ("evaluation_strategy", VStr "no")];
     t_train_dataset := None; t_eval_dataset := Some ds;
     t_compute_metrics := compute_metric_all fx; t_model_init := None |}.

(** No file was written among these events. *)
Definition no_write (evs : list Event) : Prop :=
  ∀ path text, EvWriteFile path text ∉ evs.

(** The only model loaded among these events is loaded with [args]. *)
Definition loads_only (args : LoadModelArgs) (evs : list Event) : Prop :=
  ∀ args', EvLoadModel args' ∈ evs → args' = args.

(** The attributes that [evaluate] does not assign. *)
Definition kept_by_evaluate (t t' : Trainer) : Prop :=
  fixed t' = fixed t ∧
  dataset_name t' = dataset_name t ∧ dataset_type t' = dataset_type t ∧
  split_train t' = split_train t ∧ split_validation t' = split_validation t.

(** The outcome of a run of [evaluate]. *)
Definition evaluate_post (split od : option string) (s : St)
    (r : Res Err (PyDict.t string PyVal)) (s' : St) : Prop :=
  kept_by_evaluate (self s) (self s') ∧
  match r with
  | Ok result =>
      ∃ d name ds m metrics text,
        self s' =
          set_model m
            (assigned set_split_test split
               (assigned set_output_dir od (self s))) ∧
        output_dir (self s') = Some d ∧
        split_test (self s') = Some name ∧
        PyDict.get name (tokenized_datasets (fixed (self s))) = Some ds ∧
        load_model_only
          (evaluate_load_args (model_source (self s) (world s))
             (fixed (self s))) (fs (world s)) = inr m ∧
        trainer_evaluate (evaluate_trainer m d ds (fixed (self s)))
          (fs (world s)) = inr metrics ∧
        result = PyDict.of_items metrics ∧
        json_dumps None result = inr text ∧
        fs (world s') =
          <[d +:+ "/metric.json" := File text]>
            (<[d +:+ "/metric.json" := File ""]> (fs (world s))) ∧
        trace (world s') =
          trace (world s)
          ++ [EvLoadModel (evaluate_load_args (model_source (self s) (world s))
                             (fixed (self s)));
              EvTrainerInit (t_args (evaluate_trainer m d ds (fixed (self s))));
              EvEvaluate (t_args (evaluate_trainer m d ds (fixed (self s))));
              EvWriteFile (d +:+ "/metric.json") text]
  | Raise e =>
      ∃ evs,
        trace (world s') = trace (world s) ++ evs ∧ no_write evs ∧
        loads_only
          (evaluate_load_args (model_source (self s) (world s))
             (fixed (self s))) evs ∧
        (fs (world s') = fs (world s) ∨
         ∃ d, output_dir (self s') = Some d ∧
              fs (world s') = <[d +:+ "/metric.json" := File ""]> (fs (world s)))
  end.

(** The arguments of the [load_model] call of lines 57 to 62. *)
Definition init_load_args (lm : string) (l2i : PyDict.t string Z)
    (o : InitOptions) : LoadModelArgs :=
  {| lm_model := lm; lm_task := "sequence_classification";
     lm_use_auth_token := i_use_auth_token o;
     lm_config := make_model_config l2i (i_multi_label o);
     lm_return_dict := false; lm_model_only := false |}.

(** The outcome of a run of [__init__]. *)
Definition init_run_post (lm : string) (ds : Dataset)
    (l2i : PyDict.t string Z) (o : InitOptions) (w : World)
    (r : Res Err Trainer) (w' : World) : Prop :=
  fs w' = fs w ∧
  match r with
  | Ok t =>
      ∃ cfg tok m tokenized,
        load_model (init_load_args lm l2i o) (fs w) = inr (cfg, tok, m) ∧
        dataset_map (ds_raw ds) tok (i_max_length o) = inr tokenized ∧
        config (fixed t) = cfg ∧ tokenizer (fixed t) = tok ∧ model t = m ∧
        tokenized_datasets (fixed t) = tokenized ∧
        dataset (fixed t) = ds ∧
        max_length (fixed t) = i_max_length o ∧
        use_auth_token (fixed t) = i_use_auth_token o ∧
        split_test t = i_split_test o ∧
        split_train t = i_split_train o ∧
        split_validation t = i_split_validation o ∧
        dataset_name t =
          from_option id (i_dataset_name o) (attr_dataset_name ds) ∧
        dataset_type t =
          from_option id (i_dataset_type o) (attr_dataset_type ds) ∧
        trace w' =
          trace w ++ [EvLoadModel (init_load_args lm l2i o);
                      EvDatasetMap (i_max_length o)]
  | Raise e =>
      trace w' = trace w ∨
      trace w' = trace w ++ [EvLoadModel (init_load_args lm l2i o)] ∨
      trace w' =
        trace w ++ [EvLoadModel (init_load_args lm l2i o);
                    EvDatasetMap (i_max_length o)]
  end.

(** The object after the assignments of lines 228 to 240. *)
Definition push_self (a : PushArgs) (t : Trainer) : Trainer :=
  assigned set_split_test (p_split_test a)
    (assigned set_split_validation (p_split_validation a)
       (assigned set_split_train (p_split_train a)
          (assigned set_output_dir (p_output_dir a)
             (assigned set_dataset_type (p_dataset_type a)
                (assigned set_dataset_name (p_dataset_name a) t))))).

(** The arguments of the [get_readme] call of lines 246 to 255. *)
Definition readme_args (org alias d : string) (t : Trainer) : ReadmeArgs :=
  {| rm_model_name := org +:+ "/" +:+ alias;
     rm_metric_file := d +:+ "/metric.json";
     rm_dataset_name := dataset_name t;
     rm_dataset_type := dataset_type t;
     rm_language_model := language_model (fixed t);
     rm_split_test := split_test t;
     rm_split_validation := split_validation t;
     rm_split_train := split_train t |}.

(** The shell was not run among these events. *)
Definition no_shell (evs : list Event) : Prop :=
  ∀ command status, EvSystem command status ∉ evs.

(** The outcome of lines 228 to 259. *)
Definition push_prepare_post (org alias : string) (a : PushArgs) (s : St)
    (r : Res Err unit) (s1 : St) : Prop :=
  fixed (self s1) = fixed (self s) ∧ model (self s1) = model (self s) ∧
  ∃ evs,
    trace (world s1) = trace (world s) ++ evs ∧ no_shell evs ∧
    match r with
    | Ok _ =>
        ∃ d url readme,
          self s1 = push_self a (self s) ∧
          output_dir (self s1) = Some d ∧
          create_repo alias org = inr url ∧
          get_readme (readme_args org alias d (self s1)) (fs (world s)) =
            inr readme ∧
          let written :=
            <[alias +:+ "/README.md" := File readme]>
              (<[alias +:+ "/README.md" := File ""]> (fs (world s))) in
          let hp := best_run_hyperparameters_path (fixed (self s)) in
          let dst := pj alias "best_run_hyperparameters.json" in
          let start :=
            [EvCreateRepo alias org;
             EvGetReadme (readme_args org alias d (self s1));
             EvWriteFile (alias +:+ "/README.md") readme] in
          (is_Some (written !! hp) ∧
           shutil_copy2 hp dst written = (inr tt, fs (world s1)) ∧
           evs = start ++ [EvCopy hp dst]) ∨
          (written !! hp = None ∧ fs (world s1) = written ∧ evs = start)
    | Raise e => True
    end.
End outcomes.

(** ** Runs of the toy world *)

(** The toy object after a run of [train] with the default arguments. *)
Definition toy_trained : St :=
  (@train Toy.types Toy.plain train_defaults (Toy.built Toy.plain)).2.

(** [train(search_range_lr=[1e-5])] and [train(search_range_epoch=[2, 5])]. *)
Definition toy_one_bound : TrainArgs :=
  {| tr_output_dir := None; tr_random_seed := 42; tr_eval_step := 100;
     tr_n_trials := 10; tr_split_train := None;
     tr_split_validation := None; tr_parallel_cpu := false;
     tr_search_range_lr := Some [VFloat 0x1.4f8b588e368f1p-17];
     tr_search_range_epoch := None;
     tr_search_list_batch := None; tr_ray_result_dir := "ray_result" |}.

Definition toy_epochs : TrainArgs :=
  {| tr_output_dir := None; tr_random_seed := 42; tr_eval_step := 100;
     tr_n_trials := 10; tr_split_train := None;
     tr_split_validation := None; tr_parallel_cpu := false;
     tr_search_range_lr := None;
     tr_search_range_epoch := Some [VInt 2; VInt 5];
     tr_search_list_batch := None; tr_ray_result_dir := "ray_result" |}.

(** The toy object with its output location removed by an assignment
    from outside the class. *)
Definition toy_unset : St :=
  {| self := set_output_dir None (Toy.trainer Toy.plain);
     world := Toy.built_world |}.

(** The toy object after a run of [evaluate] with no argument, and the
    report of that run. *)
Definition toy_report : PyDict.t string PyVal :=
  [("f1", VFloat 0.75); ("f1_macro", VFloat 0.5); ("accuracy", VFloat 0.75)].

Definition toy_evaluated : St :=
  (@evaluate Toy.types Toy.plain None None (Toy.built Toy.plain)).2.

(** The toy object with no test split, as [__init__] leaves it when none
    is given. *)
Definition toy_no_split : St :=
  {| self := set_split_test None (Toy.trainer Toy.plain);
     world := Toy.built_world |}.


(** A dataset that carries the attribute [dataset_name], set to [None]. *)
Definition toy_named_dataset : @Dataset Toy.types :=
  @Build_Dataset Toy.types ["train"; "validation"; "test"] (Some None) None.

Definition toy_named_options : InitOptions :=
  {| i_max_length := 128; i_split_test := Some "test";
     i_split_train := Some "train"; i_split_validation := Some "validation";
     i_use_auth_token := false; i_multi_label := false;
     i_dataset_name := Some "tweet_eval"; i_dataset_type := Some "sentiment";
     i_output_dir := Some "out" |}.

(** The toy object after [push_to_hub] with a shell whose command fails
    with status 256. *)
Definition toy_pushed : St :=
  (@push_to_hub Toy.types Toy.hub "cardiffnlp" "roberta-tweet" push_defaults
     (Toy.built Toy.hub)).2.

(** [push_to_hub(..., dataset_name='tweet_eval')]. *)
Definition toy_push_named : PushArgs :=
  {| p_split_train := None; p_split_validation := None;
     p_split_test := None; p_dataset_name := Some "tweet_eval";
     p_dataset_type := None; p_output_dir := None |}.

(** [train(output_dir='other')] on the toy object, then [evaluate()]. *)
Definition toy_moved : TrainArgs :=
  {| tr_output_dir := Some "other"; tr_random_seed := 42; tr_eval_step := 100;
     tr_n_trials := 10; tr_split_train := None;
     tr_split_validation := None; tr_parallel_cpu := false;
     tr_search_range_lr := None; tr_search_range_epoch := None;
     tr_search_list_batch := None; tr_ray_result_dir := "ray_result" |}.

Definition toy_moved_trained : St :=
  (@train Toy.types Toy.plain toy_moved (Toy.built Toy.plain)).2.

Definition toy_moved_evaluated : St :=
  (@evaluate Toy.types Toy.plain None None toy_moved_trained).2.

(** [train(search_range_epoch=[1.0, 6.0])]. *)
Definition toy_float_epochs : TrainArgs :=
  {| tr_output_dir := None; tr_random_seed := 42; tr_eval_step := 100;
     tr_n_trials := 10; tr_split_train := None;
     tr_split_validation := None; tr_parallel_cpu := false;
     tr_search_range_lr := None;
     tr_search_range_epoch := Some [VFloat 1; VFloat 6];
     tr_search_list_batch := None; tr_ray_result_dir := "ray_result" |}.


(** * Properties *)

(** ** Dictionaries *)

Section dict_facts.
Context {K V : Type} `{EqDecision K}.
Implicit Types (d : PyDict.t K V) (k : K) (v : V).



Lemma get_None k d : PyDict.get k d = None ↔ k ∉ PyDict.keys d.
Proof.
  unfold PyDict.keys. induction d as [|[k' v'] d IH]; simpl.
  - split; [intros _; apply not_elem_of_nil | done].
  - rewrite not_elem_of_cons. destruct (decide (k = k')); naive_solver.
Qed.

Lemma get_Some k v d : PyDict.wf d → PyDict.get k d = Some v ↔ (k, v) ∈ d.
Proof.
  unfold PyDict.wf, PyDict.keys. induction d as [|[k' v'] d IH]; simpl.
  - intros _. split; [done | by intros ?%elem_of_nil].
  - intros [Hk' Hd]%NoDup_cons. rewrite elem_of_cons.
    destruct (decide (k = k')) as [->|Hne].
    + split; [intros [= ->]; by left |].
      intros [[= ->]|Hin]; [done |].
      destruct Hk'. apply list_elem_of_fmap. by exists (k', v).
    + rewrite IH by done. naive_solver.
Qed.

Lemma set_fresh k v d : k ∉ PyDict.keys d → PyDict.set k v d = d ++ [(k, v)].
Proof.
  unfold PyDict.keys. induction d as [|[k' v'] d IH]; simpl; [done |].
  intros [Hne Hd]%not_elem_of_cons.
  by rewrite decide_False, IH.
Qed.

Lemma store_items_fresh (l acc : list (K * V)) :
  NoDup (acc ++ l).*1 →
  fold_left (fun d kv => PyDict.set kv.1 kv.2 d) l acc = acc ++ l.
Proof.
  revert acc. induction l as [|[k v] l IH]; intros acc Hnd; simpl.
  - by rewrite app_nil_r.
  - rewrite set_fresh.
    + rewrite IH; rewrite <- app_assoc; done.
    + rewrite fmap_app in Hnd. apply NoDup_app in Hnd as (_ & Hdis & _).
      intros Hin. apply (Hdis k Hin). simpl. by left.
Qed.

(** Copying a dictionary item by item gives it back. *)
Lemma of_items_wf (l : list (K * V)) : NoDup l.*1 → PyDict.of_items l = l.
Proof. intros Hnd. unfold PyDict.of_items. by rewrite store_items_fresh. Qed.

Lemma keys_set_present k v d :
  k ∈ PyDict.keys d → PyDict.keys (PyDict.set k v d) = PyDict.keys d.
Proof.
  unfold PyDict.keys. induction d as [|[k' v'] d IH]; simpl.
  - by intros ?%elem_of_nil.
  - intros Hin. destruct (decide (k = k')) as [->|Hne]; simpl; [done |].
    apply elem_of_cons in Hin as [?|Hin]; [done |]. f_equal. by apply IH.
Qed.

Lemma wf_set k v d : PyDict.wf d → PyDict.wf (PyDict.set k v d).
Proof.
  unfold PyDict.wf. intros Hd.
  destruct (decide (k ∈ PyDict.keys d)) as [Hin|Hin].
  - by rewrite keys_set_present.
  - rewrite set_fresh by done. unfold PyDict.keys in *. rewrite fmap_app.
    apply NoDup_app. split_and!; [done | | apply NoDup_singleton].
    intros x Hx ->%list_elem_of_singleton. done.
Qed.

Lemma wf_of_items (l : list (K * V)) : PyDict.wf (PyDict.of_items l).
Proof.
  unfold PyDict.of_items.
  assert (Hacc : PyDict.wf (@nil (K * V))) by apply NoDup_nil_2.
  revert Hacc. generalize (@nil (K * V)).
  induction l as [|[k v] l IH]; intros acc Hacc; simpl; [done |].
  apply IH. by apply wf_set.
Qed.
End dict_facts.

(** ** The label mapping (line 54) *)

Lemma invert_labels_distinct (label_to_id : PyDict.t string Z) :
  NoDup label_to_id.*2 →
  invert_labels label_to_id = (fun kv => (kv.2, kv.1)) <$> label_to_id.
Proof.
  intros Hnd. unfold invert_labels. apply of_items_wf.
  rewrite <- list_fmap_compose.
  replace (fst ∘ (fun kv : string * Z => (kv.2, kv.1))) with (@snd string Z);
    done.
Qed.

Lemma invert_labels_exact_inverse (label_to_id : PyDict.t string Z) :
  PyDict.wf label_to_id → NoDup label_to_id.*2 →
  exact_inverse label_to_id (invert_labels label_to_id).
Proof.
  intros Hwf Hnd. rewrite invert_labels_distinct by done. split.
  - by rewrite length_fmap.
  - intros label i Hget. apply get_Some in Hget; [|done].
    apply get_Some.
    + unfold PyDict.wf, PyDict.keys. rewrite <- list_fmap_compose.
      replace (fst ∘ (fun kv : string * Z => (kv.2, kv.1))) with (@snd string Z);
        done.
    + apply list_elem_of_fmap. by exists (label, i).
Qed.

(** ** Reasoning about computations *)

Section wp_rules.
Context {Err S : Type}.

Lemma wp_bind {A B : Type} (m : M Err S A) (k : A → M Err S B) s Q :
  wp m s (fun r s1 =>
            match r with
            | Raise e => Q (Raise e) s1
            | Ok a => wp (k a) s1 Q
            end) →
  wp (bind m k) s Q.
Proof.
  unfold wp, bind. intros Hm r s' Hr.
  destruct (m s) as [[e|a] s1] eqn:Hms.
  - specialize (Hm _ _ eq_refl). simpl in Hm. by simplify_eq.
  - specialize (Hm _ _ eq_refl). simpl in Hm. by apply Hm.
Qed.

Lemma wp_ret {A : Type} (a : A) (s : S) (Q : Res Err A → S → Prop) :
  Q (Ok a) s → wp (ret a) s Q.
Proof. unfold wp, ret. by intros HQ r s' [= <- <-]. Qed.

Lemma wp_raise {A : Type} (e : Err) (s : S) (Q : Res Err A → S → Prop) :
  Q (Raise e) s → wp (raise e) s Q.
Proof. unfold wp, raise. by intros HQ r s' [= <- <-]. Qed.

Lemma wp_gets {A : Type} (f : S → A) (s : S) (Q : Res Err A → S → Prop) :
  Q (Ok (f s)) s → wp (gets f) s Q.
Proof. unfold wp, gets. by intros HQ r s' [= <- <-]. Qed.

Lemma wp_modify (f : S → S) (s : S) (Q : Res Err unit → S → Prop) :
  Q (Ok tt) (f s) → wp (modify f) s Q.
Proof. unfold wp, modify. by intros HQ r s' [= <- <-]. Qed.

Lemma wp_lift_res {A : Type} (r : Res Err A) (s : S) Q :
  Q r s → wp (lift_res r) s Q.
Proof. unfold wp, lift_res. by intros HQ r' s' [= <- <-]. Qed.

Lemma wp_when_given {A : Type} (v : option A) (k : A → M Err S unit) s
    (Q : Res Err unit → S → Prop) :
  match v with
  | Some a => wp (k a) s Q
  | None => Q (Ok tt) s
  end →
  wp (when_given v k) s Q.
Proof. destruct v; simpl; [done | apply wp_ret]. Qed.

Lemma wp_zoom {T A : Type} (proj : S → T) (inj : T → S → S)
    (m : M Err T A) s Q :
  wp m (proj s) (fun r t' => Q r (inj t' s)) → wp (zoom proj inj m) s Q.
Proof.
  unfold wp, zoom. intros Hm r s' Hr.
  destruct (m (proj s)) as [r1 t'] eqn:Hmt. simplify_eq.
  by apply Hm.
Qed.

Lemma wp_use {A : Type} (m : M Err S A) s Q r s' :
  wp m s Q → m s = (r, s') → Q r s'.
Proof. intros Hwp. apply Hwp. Qed.
End wp_rules.

Section wp_world.
Context {T : ExtTypes} {X : Externals}.

Lemma wp_log e w Q : Q (Ok tt) (add_event e w) → wp (log e) w Q.
Proof. apply wp_modify. Qed.

Lemma wp_ext {S A : Type} who (x : ExtErr + A) (s : S)
    (Q : Res Err A → S → Prop) :
  (∀ a, x = inr a → Q (Ok a) s) →
  (∀ e, x = inl e → Q (Raise (External who e)) s) →
  wp (lift_res (from_ext who x)) s Q.
Proof.
  intros Hok Herr. apply wp_lift_res. destruct x; simpl; eauto.
Qed.

Lemma wp_ask {A : Type} who (f : gmap string Entry → ExtErr + A) w
    (Q : Res Err A → World → Prop) :
  (∀ a, f (fs w) = inr a → Q (Ok a) w) →
  (∀ e, f (fs w) = inl e → Q (Raise (External who e)) w) →
  wp (ask who f) w Q.
Proof.
  unfold wp, ask. intros Hok Herr r s' [= <- <-].
  destruct (f (fs w)); simpl; eauto.
Qed.

Lemma wp_call {A : Type} who
    (f : gmap string Entry → (ExtErr + A) * gmap string Entry) w
    (Q : Res Err A → World → Prop) :
  (∀ a f', f (fs w) = (inr a, f') → Q (Ok a) (set_fs f' w)) →
  (∀ e f', f (fs w) = (inl e, f') → Q (Raise (External who e)) (set_fs f' w)) →
  wp (call who f) w Q.
Proof.
  unfold wp, call. intros Hok Herr r s'.
  destruct (f (fs w)) as [[e|a] f']; intros [= <- <-]; eauto.
Qed.

Lemma wp_getitem {S V : Type} (d : PyDict.t string V) key (s : S)
    (Q : Res Err V → S → Prop) :
  (∀ v, PyDict.get key d = Some v → Q (Ok v) s) →
  (PyDict.get key d = None → Q (Raise (KeyError (Some key))) s) →
  wp (lift_res (getitem d key)) s Q.
Proof.
  intros Hok Herr. apply wp_lift_res. unfold getitem.
  destruct (PyDict.get key d); eauto.
Qed.

Lemma wp_run_shell command w (Q : Res Err Z → World → Prop) :
  (∀ status f',
     os_system command (fs w) = (status, f') →
     Q (Ok status) (add_event (EvSystem command status) (set_fs f' w))) →
  wp (run_shell command) w Q.
Proof.
  unfold wp, run_shell. intros HQ r s'.
  destruct (os_system command (fs w)) as [status f'] eqn:Hsys.
  intros [= <- <-]. eauto.
Qed.

Lemma wp_for_each_log {A : Type} (f : A → Event) (l : list A) (w : World) Q :
  Q (Ok tt) {| fs := fs w; trace := trace w ++ (f <$> l) |} →
  wp (for_each l (fun x => log (f x))) w Q.
Proof.
  revert w. induction l as [|x l IH]; intros w HQ; simpl.
  - apply wp_ret. rewrite app_nil_r in HQ. by destruct w.
  - apply wp_bind, wp_log. simpl. apply IH. simpl.
    by rewrite <- app_assoc.
Qed.
End wp_world.

Ltac wp_simpl :=
  cbn [self world fs trace set_fs add_event fst snd
       fixed dataset_name dataset_type output_dir model split_test
       split_train split_validation set_dataset_name set_dataset_type
       set_output_dir set_model set_split_test set_split_train
       set_split_validation] in *.

(** One step of symbolic execution. *)
Ltac wp_step :=
  lazymatch goal with
  | |- wp (bind _ _) _ _ => apply wp_bind
  | |- wp (ret _) _ _ => apply wp_ret
  | |- wp (raise _) _ _ => apply wp_raise
  | |- wp (gets _) _ _ => apply wp_gets
  | |- wp (modify _) _ _ => apply wp_modify
  | |- wp (lift_res (from_ext _ _)) _ _ => apply wp_ext; intros
  | |- wp (lift_res (getitem _ _)) _ _ => apply wp_getitem; intros
  | |- wp (lift_res _) _ _ => apply wp_lift_res
  | |- wp (when_given ?v _) _ _ => apply wp_when_given; destruct v
  | |- wp (zoom _ _ _) _ _ => apply wp_zoom
  | |- wp (in_world _) _ _ => unfold in_world at 1
  | |- wp (self_get _) _ _ => unfold self_get at 1
  | |- wp (self_set _) _ _ => unfold self_set at 1
  | |- wp (log _) _ _ => apply wp_log
  | |- wp (ask _ _) _ _ => apply wp_ask; intros
  | |- wp (call _ _) _ _ => apply wp_call; intros
  | |- wp (run_shell _) _ _ => apply wp_run_shell; intros
  | |- wp (for_each _ (fun x => log _)) _ _ => apply wp_for_each_log
  | |- wp (open_w _) _ _ => unfold open_w at 1
  | |- wp (write _ _) _ _ => unfold write at 1
  | |- wp (dump_json _ _) _ _ => unfold dump_json at 1
  | |- wp (assert_output_dir _) _ _ => unfold assert_output_dir at 1
  | |- wp export_file _ _ => unfold export_file at 1
  | |- wp (tokenized_split ?k) _ _ => unfold tokenized_split at 1
  | |- wp (match ?x with _ => _ end) _ _ => destruct x eqn:?
  | |- wp (if ?x then _ else _) _ _ => destruct x eqn:?
  | |- match ?r with Raise _ => _ | Ok _ => _ end => destruct r eqn:?
  end; cbv beta iota; wp_simpl.

(** ** The search space (lines 158 to 167) *)

Lemma py_range_elem (lo hi x : Z) : x ∈ py_range lo hi ↔ lo ≤ x < hi.
Proof. unfold py_range. rewrite elem_of_seqZ. lia. Qed.

Lemma py_range_empty (lo hi : Z) : hi ≤ lo → py_range lo hi = [].
Proof.
  intros Hle. unfold py_range, seqZ.
  replace (Z.to_nat (hi - lo)) with 0%nat by lia. done.
Qed.

Section search_space_facts.
Context {ExtErr : Type}.
Implicit Types rlr rep batch : option (list PyVal).

Lemma define_search_space_lr rlr rep batch :
  length (default default_search_range_lr rlr) ≠ 2%nat →
  define_search_space (ExtErr:=ExtErr) rlr rep batch =
  Raise (AssertionError "len(search_range_lr) should be 2: "
           (default default_search_range_lr rlr)).
Proof.
  intros Hlen. unfold define_search_space.
  by rewrite bool_decide_false.
Qed.

Lemma define_search_space_epoch rlr rep batch :
  length (default default_search_range_lr rlr) = 2%nat →
  length (default default_search_range_epoch rep) ≠ 2%nat →
  define_search_space (ExtErr:=ExtErr) rlr rep batch =
  Raise (AssertionError "len(search_range_epoch) should be 2: "
           (default default_search_range_epoch rep)).
Proof.
  intros Hlr Hep. unfold define_search_space.
  rewrite bool_decide_true by done. simpl.
  by rewrite bool_decide_false.
Qed.

(** Past the two assertions the only exception left is the [TypeError]
    of [range]. *)
Lemma define_search_space_lengths rlr rep batch :
  length (default default_search_range_lr rlr) = 2%nat →
  length (default default_search_range_epoch rep) = 2%nat →
  ∃ lr0 lr1 e0 e1,
    default default_search_range_lr rlr = [lr0; lr1] ∧
    default default_search_range_epoch rep = [e0; e1] ∧
    define_search_space (ExtErr:=ExtErr) rlr rep batch =
    match range_list e0 e1 with
    | Raise e => Raise e
    | Ok epochs =>
        Ok [("learning_rate", Loguniform lr0 lr1);
            ("num_train_epochs", Choice epochs);
            ("per_device_train_batch_size",
             Choice (default default_search_list_batch batch))]
    end.
Proof.
  intros Hlr Hep. unfold define_search_space.
  rewrite !bool_decide_true by done. simpl.
  destruct (default default_search_range_lr rlr) as [|lr0 [|lr1 [|]]];
    simplify_eq/=.
  destruct (default default_search_range_epoch rep) as [|e0 [|e1 [|]]];
    simplify_eq/=.
  exists lr0, lr1, e0, e1. split_and!; [done..|].
  by destruct (range_list e0 e1).
Qed.

Lemma range_list_not_assertion (a b : PyVal) msg shown :
  range_list (ExtErr:=ExtErr) a b ≠ Raise (AssertionError msg shown).
Proof. unfold range_list. by repeat case_match. Qed.

Lemma define_search_space_assertion rlr rep batch msg shown :
  define_search_space (ExtErr:=ExtErr) rlr rep batch =
    Raise (AssertionError msg shown) →
  (msg = "len(search_range_lr) should be 2: " ∧
   length (default default_search_range_lr rlr) ≠ 2%nat) ∨
  (msg = "len(search_range_epoch) should be 2: " ∧
   length (default default_search_range_epoch rep) ≠ 2%nat).
Proof.
  intros Hdef.
  destruct (decide (length (default default_search_range_lr rlr) = 2%nat))
    as [Hlr|Hlr].
  - destruct (decide (length (default default_search_range_epoch rep) = 2%nat))
      as [Hep|Hep].
    + destruct (define_search_space_lengths rlr rep batch Hlr Hep)
        as (lr0 & lr1 & e0 & e1 & _ & _ & Heq).
      rewrite Heq in Hdef.
      destruct (range_list e0 e1) eqn:Hr; [|done].
      simplify_eq. by apply range_list_not_assertion in Hr.
    + rewrite define_search_space_epoch in Hdef by done.
      simplify_eq. by right.
  - rewrite define_search_space_lr in Hdef by done.
    simplify_eq. by left.
Qed.

(** The epoch candidates of a search space that was built. *)
Lemma define_search_space_epochs rlr rep batch lo hi space :
  default default_search_range_epoch rep = [VInt lo; VInt hi] →
  define_search_space (ExtErr:=ExtErr) rlr rep batch = Ok space →
  PyDict.get "num_train_epochs" space = Some (Choice (VInt <$> py_range lo hi)).
Proof.
  intros Hep Hdef.
  destruct (decide (length (default default_search_range_lr rlr) = 2%nat))
    as [Hlr|Hlr]; [|by rewrite define_search_space_lr in Hdef].
  destruct (define_search_space_lengths rlr rep batch Hlr)
    as (lr0 & lr1 & e0 & e1 & _ & Hep' & Heq); [by rewrite Hep|].
  rewrite Heq in Hdef. rewrite Hep in Hep'. simplify_eq/=. done.
Qed.
End search_space_facts.

(** ** Construction (lines 26 to 74) *)

Section init_facts.
Context {T : ExtTypes} {X : Externals}.

Lemma get_metrics_ok multi ms :
  get_metrics multi = Ok ms →
  ∃ metric_accuracy metric_f1,
    ms = (compute_metric_search_of multi metric_f1,
          compute_metric_all_of multi metric_accuracy metric_f1).
Proof.
  unfold get_metrics, res_bind, from_ext. intros H.
  destruct (load_metric "accuracy" _) as [?|metric_accuracy]; [done |].
  destruct (load_metric "f1" _) as [?|metric_f1]; [done |].
  exists metric_accuracy, metric_f1. by simplify_eq.
Qed.

Lemma get_metrics_raise multi e :
  get_metrics multi = Raise e → ∃ who e', e = External who e'.
Proof.
  unfold get_metrics, res_bind, from_ext. intros H.
  destruct (load_metric "accuracy" _) as [?|metric_accuracy];
    [simplify_eq; eauto |].
  destruct (load_metric "f1" _) as [?|metric_f1]; simplify_eq; eauto.
Qed.

(** What [__init__] leaves in the object it returns. *)
Definition init_post (lm : string) (l2i : PyDict.t string Z)
    (o : InitOptions) (t : Trainer) : Prop :=
  ∃ d0 metric_accuracy metric_f1,
    i_output_dir o = Some d0 ∧
    output_dir t = Some d0 ∧
    best_model_path (fixed t) = pj d0 "best_model" ∧
    best_run_hyperparameters_path (fixed t) =
      pj d0 "best_run_hyperparameters.json" ∧
    language_model (fixed t) = lm ∧
    multi_label (fixed t) = i_multi_label o ∧
    model_config (fixed t) = make_model_config l2i (i_multi_label o) ∧
    compute_metric_all (fixed t) =
      compute_metric_all_of (i_multi_label o) metric_accuracy metric_f1.

Lemma init_ok lm ds l2i o w t w' :
  init lm ds l2i o w = (Ok t, w') → init_post lm l2i o t.
Proof.
  revert t w'.
  cut (wp (init lm ds l2i o) w (fun r _ =>
         match r with Ok t => init_post lm l2i o t | Raise _ => True end)).
  { intros Hwp t w' Hinit. apply (Hwp _ _ Hinit). }
  unfold init, join_opt.
  repeat wp_step; try done.
  match goal with H : get_metrics _ = Ok _ |- _ =>
    apply get_metrics_ok in H as (acc & f1 & ->) end.
  destruct (i_output_dir o) as [d0|] eqn:Hod; simplify_eq.
  by exists d0, acc, f1.
Qed.

(** Without an output location [__init__] raises: an exception of a
    collaborator, or the [TypeError] of [os.path.join]; never an
    assertion. *)
Lemma init_without_output_dir lm ds l2i o w :
  i_output_dir o = None →
  ∃ e w',
    init lm ds l2i o w = (Raise e, w') ∧
    (e = TypeError "expected str, bytes or os.PathLike object, not NoneType"
     ∨ ∃ who e', e = External who e').
Proof.
  intros Hnone.
  cut (wp (init lm ds l2i o) w (fun r _ =>
         ∃ e, r = Raise e ∧
           (e = TypeError
                  "expected str, bytes or os.PathLike object, not NoneType"
            ∨ ∃ who e', e = External who e'))).
  { intros Hwp. destruct (init lm ds l2i o w) as [r w'] eqn:Hinit.
    destruct (Hwp _ _ Hinit) as (e & -> & He). eauto. }
  unfold init, join_opt. rewrite Hnone.
  repeat wp_step; eauto 6.
  all: try (match goal with H : get_metrics _ = Raise _ |- _ =>
              apply get_metrics_raise in H as (? & ? & ->) end; eauto 6).
Qed.
End init_facts.

(** ** What the methods leave unchanged *)

Section frame.
Context {T : ExtTypes} {X : Externals}.

(** A method keeps the attributes fixed at construction, keeps an
    output location set, and with an output location set its
    [output_dir] assertion does not fire. *)
Definition frame {A : Type} (s : St) (r : Res Err A) (s' : St) : Prop :=
  fixed (self s') = fixed (self s) ∧
  (is_Some (output_dir (self s)) →
   is_Some (output_dir (self s')) ∧
   ∀ shown, r ≠ Raise (AssertionError "output_dir should be specified." shown)).

Ltac frame_leaf :=
  split; [done | intros Hsome; split; [by eauto | intros shown; try done]].

Lemma train_frame a s r s' : train a s = (r, s') → frame s r s'.
Proof.
  revert r s'. change (wp (train a) s (frame s)).
  unfold train, train_setup, finetune_best.
  repeat wp_step; frame_leaf.
  all: try by destruct Hsome.
  all: intros ?; simplify_eq.
  all: try match goal with H : define_search_space _ _ _ = Raise _ |- _ =>
         apply define_search_space_assertion in H as [[? _]|[? _]]; done end.
  destruct Hsome as [? ?]; congruence.
Qed.

Lemma evaluate_frame split od s r s' :
  evaluate split od s = (r, s') → frame s r s'.
Proof.
  revert r s'. change (wp (evaluate split od) s (frame s)).
  unfold evaluate.
  repeat wp_step; frame_leaf.
  all: try by destruct Hsome.
  all: destruct Hsome as [? ?]; congruence.
Qed.

Lemma push_to_hub_frame org alias a s r s' :
  push_to_hub org alias a s = (r, s') → frame s r s'.
Proof.
  revert r s'. change (wp (push_to_hub org alias a) s (frame s)).
  unfold push_to_hub, push_prepare.
  repeat wp_step; frame_leaf.
  all: try by destruct Hsome.
  all: destruct Hsome as [? ?]; congruence.
Qed.

(** The invariant of the objects of the class. *)
Lemma constructed_inv d0 t :
  constructed d0 t →
  is_Some (output_dir t) ∧
  best_model_path (fixed t) = pj d0 "best_model" ∧
  best_run_hyperparameters_path (fixed t) =
    pj d0 "best_run_hyperparameters.json" ∧
  ∃ metric_accuracy metric_f1,
    compute_metric_all (fixed t) =
    compute_metric_all_of (multi_label (fixed t)) metric_accuracy metric_f1.
Proof.
  induction 1 as [lm ds l2i o w t w' Hod Hinit
                 |a s r s' _ IH Hrun
                 |split od s r s' _ IH Hrun
                 |org alias a s r s' _ IH Hrun].
  - apply init_ok in Hinit
      as (d & acc & f1 & Hd & Hout & Hbm & Hhp & _ & Hml & _ & Hall).
    rewrite Hml. simplify_eq. rewrite Hout. eauto 8.
  - apply train_frame in Hrun as [Hfix Hout]. rewrite Hfix.
    destruct IH as (Hsome & ?). split; [by apply Hout | done].
  - apply evaluate_frame in Hrun as [Hfix Hout]. rewrite Hfix.
    destruct IH as (Hsome & ?). split; [by apply Hout | done].
  - apply push_to_hub_frame in Hrun as [Hfix Hout]. rewrite Hfix.
    destruct IH as (Hsome & ?). split; [by apply Hout | done].
Qed.
End frame.

(** ** The toy world is a world of the class *)

(** Distinctness of the elements of a list that is given in full. *)
Ltac nodup_by_computation :=
  unfold PyDict.wf, PyDict.keys;
  apply (bool_decide_unpack _); vm_compute; exact I.

Lemma toy_init (prefix : bool) (status : Z) :
  @init Toy.types (Toy.externals prefix status) "roberta" Toy.dataset
    Toy.labels Toy.options Toy.empty_world =
  (Ok (Toy.trainer (Toy.externals prefix status)), Toy.built_world).
Proof. reflexivity. Qed.

Lemma toy_constructed (prefix : bool) (status : Z) :
  @constructed Toy.types (Toy.externals prefix status) "out"
    (Toy.trainer (Toy.externals prefix status)).
Proof.
  eapply constructed_init; [|apply toy_init]. reflexivity.
Qed.

(** ** The label mapping derived at construction *)

Section labels.
Context {T : ExtTypes} {X : Externals}.

(** C6, as amended: for every label-to-id mapping of size K whose ids
    are pairwise distinct, the id-to-label mapping derived at
    construction is its exact inverse on all K entries: it has K entries
    and looking up the id of a pair (label, id) returns the label. *)
Theorem id2label_inverse_of_distinct_ids lm ds
    (label_to_id : PyDict.t string Z) o w t w' :
  PyDict.wf label_to_id →
  NoDup label_to_id.*2 →
  init lm ds label_to_id o w = (Ok t, w') →
  label2id (model_config (fixed t)) = label_to_id ∧
  exact_inverse label_to_id (id2label (model_config (fixed t))).
Proof.
  intros Hwf Hnd Hinit.
  apply init_ok in Hinit as (d0 & acc & f1 & _ & _ & _ & _ & _ & _ & -> & _).
  split; [done |]. by apply invert_labels_exact_inverse.
Qed.
End labels.

Lemma id2label_inverse_of_distinct_ids_toy :
  label2id (model_config (fixed (Toy.trainer Toy.plain))) = Toy.labels ∧
  exact_inverse Toy.labels
    (id2label (model_config (fixed (Toy.trainer Toy.plain)))).
Proof.
  apply (@id2label_inverse_of_distinct_ids Toy.types Toy.plain "roberta"
           Toy.dataset Toy.labels Toy.options Toy.empty_world
           (Toy.trainer Toy.plain) Toy.built_world).
  - nodup_by_computation.
  - nodup_by_computation.
  - reflexivity.
Defined.

(** Two labels that share an id: the derived mapping has one entry for
    the two and returns the second label for the id of the first. *)
Lemma id2label_not_inverse_of_shared_id :
  ∃ t w',
    @init Toy.types Toy.plain "roberta" Toy.dataset [("a", 0); ("b", 0)]
      Toy.options Toy.empty_world = (Ok t, w') ∧
    PyDict.wf [("a", 0); ("b", 0)] ∧
    id2label (model_config (fixed t)) = [(0, "b")] ∧
    ¬ exact_inverse [("a", 0); ("b", 0)] (id2label (model_config (fixed t))).
Proof.
  eexists _, _. split; [reflexivity |]. split_and!.
  - nodup_by_computation.
  - reflexivity.
  - intros [Hlen _]. vm_compute in Hlen. discriminate.
Qed.

(** ** The output location *)

Section output_location.
Context {T : ExtTypes} {X : Externals}.

(** C9: constructing the object without an output location raises (the
    two paths are joined from it before any assertion looks at it: the
    exception is that of a collaborator called earlier or the
    [TypeError] of [os.path.join]); so every object of the class has an
    output location from then on, and the [output_dir] assertions of
    [train], [evaluate] and [push_to_hub] never fire on one. *)
Theorem output_dir_set_once_constructed :
  (∀ lm ds l2i o w,
     i_output_dir o = None →
     ∃ e w',
       init lm ds l2i o w = (Raise e, w') ∧
       (e = TypeError
              "expected str, bytes or os.PathLike object, not NoneType"
        ∨ ∃ who e', e = External who e')) ∧
  (∀ d0 t, constructed d0 t → is_Some (output_dir t)) ∧
  (∀ d0 s shown,
     constructed d0 (self s) →
     (∀ a, (train a s).1 ≠
           Raise (AssertionError "output_dir should be specified." shown)) ∧
     (∀ split od, (evaluate split od s).1 ≠
           Raise (AssertionError "output_dir should be specified." shown)) ∧
     (∀ org alias a, (push_to_hub org alias a s).1 ≠
           Raise (AssertionError "output_dir should be specified." shown))).
Proof.
  split_and!.
  - apply init_without_output_dir.
  - intros d0 t Hc. by apply constructed_inv in Hc as [? _].
  - intros d0 s shown Hc. apply constructed_inv in Hc as [Hsome _].
    split_and!.
    + intros a. destruct (train a s) as [r s'] eqn:Hrun.
      apply train_frame in Hrun as [_ Hf]. by apply Hf.
    + intros split od. destruct (evaluate split od s) as [r s'] eqn:Hrun.
      apply evaluate_frame in Hrun as [_ Hf]. by apply Hf.
    + intros org alias a.
      destruct (push_to_hub org alias a s) as [r s'] eqn:Hrun.
      apply push_to_hub_frame in Hrun as [_ Hf]. by apply Hf.
Qed.
End output_location.

Lemma output_dir_set_once_constructed_toy :
  is_Some (output_dir (Toy.trainer Toy.hub)) ∧
  (@train Toy.types Toy.hub train_defaults (Toy.built Toy.hub)).1 ≠
    Raise (AssertionError "output_dir should be specified." []).
Proof.
  destruct (@output_dir_set_once_constructed Toy.types Toy.hub)
    as (_ & Hset & Hassert).
  split.
  - exact (Hset "out" _ (toy_constructed true 256)).
  - exact (proj1 (Hassert "out" (Toy.built Toy.hub) []
                    (toy_constructed true 256)) train_defaults).
Defined.

(** ** Training (lines 115 to 191) *)

Lemma no_search_nil : no_search [].
Proof. intros c. apply not_elem_of_nil. Qed.

Lemma no_search_cons e evs :
  (∀ c, e ≠ EvHyperparameterSearch c) → no_search evs → no_search (e :: evs).
Proof.
  intros He Hevs c [Heq|Hin]%elem_of_cons; [by apply (He c) | by apply (Hevs c)].
Qed.

Lemma no_search_app evs1 evs2 :
  no_search evs1 → no_search evs2 → no_search (evs1 ++ evs2).
Proof.
  intros H1 H2 c [Hin|Hin]%elem_of_app; [by apply (H1 c) | by apply (H2 c)].
Qed.

Lemma no_search_setattr (l : list (string * PyVal)) :
  no_search ((fun nv => EvSetattr nv.1 nv.2) <$> l).
Proof. intros c (nv & Heq & _)%list_elem_of_fmap. discriminate. Qed.

Ltac solve_no_search :=
  repeat first
    [ apply no_search_nil
    | apply no_search_setattr
    | apply no_search_app
    | apply no_search_cons; [by intros ? | ] ].

(** The events of a run extend the trace: [trace w' = trace w ++ ?evs]. *)
Ltac trace_eq :=
  first
    [ symmetry; apply app_nil_r
    | rewrite <- ?app_assoc; reflexivity ].

Lemma bind_inv {Err S A B : Type} (m : M Err S A) (k : A → M Err S B) s r s' :
  bind m k s = (r, s') →
  (∃ e, m s = (Raise e, s') ∧ r = Raise e) ∨
  (∃ a s1, m s = (Ok a, s1) ∧ k a s1 = (r, s')).
Proof.
  unfold bind. destruct (m s) as [[e|a] s1]; intros Hk.
  - left. exists e. by simplify_eq.
  - right. by exists a, s1.
Qed.

Section training.
Context {T : ExtTypes} {X : Externals}.

Lemma train_setup_spec a s r s1 :
  train_setup a s = (r, s1) → setup_post a s r s1.
Proof.
  revert r s1. change (wp (train_setup a) s (setup_post a s)).
  unfold train_setup, setup_post, train_self.
  repeat wp_step; (split; [by unfold kept |]); wp_simpl.
  all: repeat match goal with u : () |- _ => destruct u end.
  all: try (eexists; split_and!;
            [reflexivity
            |first [eassumption | reflexivity]
            |eassumption
            |reflexivity..
            |trace_eq]).
  all: eexists; split_and!; [trace_eq | solve_no_search | by intros ? ? [=]].
Qed.

Lemma finetune_best_spec trainer hp s r s' :
  finetune_best trainer hp s = (r, s') → finetune_post trainer hp s r s'.
Proof.
  revert r s'. change (wp (finetune_best trainer hp) s (finetune_post trainer hp s)).
  unfold finetune_best.
  repeat wp_step; (split; [done |]); (split; [done |]); wp_simpl.
  all: eexists; split_and!; [trace_eq | solve_no_search | try done].
  intros _. repeat match goal with u : () |- _ => destruct u end.
  eexists _, _, _, _, _. split_and!; [eassumption | eassumption | eassumption |].
  trace_eq.
Qed.

(** The step of line 172, between the two. *)
Lemma search_step trainer search (s1 : St) :
  in_world (log (EvHyperparameterSearch search) ;;;
            call "Trainer.hyperparameter_search"
              (hyperparameter_search trainer search)) s1 =
  let '(x, f') := hyperparameter_search trainer search (fs (world s1)) in
  (from_ext "Trainer.hyperparameter_search" x,
   {| self := self s1;
      world := set_fs f' (add_event (EvHyperparameterSearch search) (world s1)) |}).
Proof.
  unfold in_world, zoom, bind, log, modify, call. simpl.
  by destruct (hyperparameter_search trainer search (fs (world s1))).
Qed.

(** How a run of [train] ends: in the set-up, at the definition of the
    search space, in the search, or in the fine-tuning that follows it. *)
Lemma train_cases a s r s' :
  train a s = (r, s') →
  (∃ e, train_setup a s = (Raise e, s') ∧ r = Raise e) ∨
  ∃ trainer s1,
    train_setup a s = (Ok trainer, s1) ∧
    ((∃ e,
        train_search_space a = Raise e ∧
        r = Raise e ∧ s' = s1) ∨
     ∃ space x f',
       train_search_space a = Ok space ∧
       hyperparameter_search trainer (search_call a space) (fs (world s1)) =
         (x, f') ∧
       let s2 :=
         {| self := self s1;
            world :=
              set_fs f'
                (add_event (EvHyperparameterSearch (search_call a space))
                   (world s1)) |} in
       match x with
       | inl e =>
           r = Raise (External "Trainer.hyperparameter_search" e) ∧ s' = s2
       | inr hp => finetune_best trainer hp s2 = (r, s')
       end).
Proof.
  unfold train, train_search_space. intros Hrun.
  apply bind_inv in Hrun as [(e & Hsetup & ->)|(trainer & s1 & Hsetup & Hrun)];
    [left; eauto |].
  right. exists trainer, s1. split; [done |].
  apply bind_inv in Hrun as [(e & Hdef & ->)|(space & s1' & Hdef & Hrun)];
    unfold lift_res in Hdef; injection Hdef as Hdef <-.
  { left. by exists e. }
  right. exists space.
  apply bind_inv in Hrun as [(e & Hsearch & ->)|(hp & s2 & Hsearch & Hrun)];
    rewrite search_step in Hsearch; fold (search_call a space) in Hsearch;
    destruct (hyperparameter_search trainer (search_call a space)
                (fs (world s1))) as [[e'|hp'] f'] eqn:Hhs;
    simpl in Hsearch; simplify_eq.
  - exists (inl e'), f'. by split_and!.
  - exists (inr hp), f'. by split_and!.
Qed.
End training.

(** ** Properties of [train] *)

Section dict_updates.
Context {K V : Type} `{EqDecision K}.


End dict_updates.

Lemma bind_ok {Err S A B : Type} (m : M Err S A) (k : A → M Err S B) s a s1 :
  m s = (Ok a, s1) → bind m k s = k a s1.
Proof. unfold bind. by intros ->. Qed.


(** Membership of a search in a list of events given in full. *)
Ltac search_among :=
  repeat first
    [ progress simplify_eq
    | match goal with
      | H : _ ∈ [] |- _ => by apply elem_of_nil in H
      | H : _ ∈ _ :: _ |- _ => apply elem_of_cons in H as [H|H]
      | H : _ ∈ _ ++ _ |- _ => apply elem_of_app in H as [H|H]
      | H : EvHyperparameterSearch ?c ∈ ?evs, Hno : no_search ?evs |- _ =>
          by destruct (Hno c)
      end ].

Section train_run.
Context {T : ExtTypes} {X : Externals}.

(** The events of a run of [train], and the one search it can start. *)
Lemma train_searches a s r s' :
  train a s = (r, s') →
  ∃ evs,
    trace (world s') = trace (world s) ++ evs ∧
    ∀ c, EvHyperparameterSearch c ∈ evs →
      ∃ space, train_search_space a = Ok space ∧ c = search_call a space.
Proof.
  intros [(e & Hsetup & ->)|(trainer & s1 & Hsetup & Hrest)]%train_cases;
    apply train_setup_spec in Hsetup as [_ Hsetup].
  { destruct Hsetup as (evs & Htr & Hno & _). exists evs. split; [done |].
    intros c Hc. search_among. }
  destruct Hsetup as (d & _ & _ & _ & _ & _ & _ & Htr).
  destruct Hrest as [(e & Hdef & -> & ->)|(space & x & f' & Hdef & Hhs & Hrest)].
  { eexists. split; [done |]. intros c Hc. search_among. }
  destruct x as [e|hp]; simpl in Hrest.
  - destruct Hrest as [-> ->]. simpl. rewrite Htr.
    eexists. split; [by rewrite <- app_assoc |]. intros c Hc. search_among.
    eauto.
  - apply finetune_best_spec in Hrest as (_ & _ & evs & Htr' & Hno & _).
    simpl in Htr'. rewrite Htr', Htr.
    eexists. split; [by rewrite <- !app_assoc |]. intros c Hc. search_among.
    eauto.
Qed.

(** A successful run, step by step. *)
Lemma train_ok a s s' :
  train a s = (Ok tt, s') →
  ∃ d trainer space hp text f1 f2 f3 f4 f5 f6,
    train_setup a s = (Ok trainer, {| self := train_self a (self s);
                                      world := {| fs := f1;
                                                  trace := trace (world s) ++
                                                    [EvMakedirs d;
                                                     EvTrainerInit (t_args trainer)] |} |}) ∧
    output_dir (train_self a (self s)) = Some d ∧
    train_search_space a = Ok space ∧
    hyperparameter_search trainer (search_call a space) f1 = (inr hp, f2) ∧
    json_dumps None hp = inr text ∧
    let args :=
      PyDict.set "evaluation_strategy" (VStr "no")
        (fold_left (fun d nv => PyDict.set nv.1 nv.2 d) hp (t_args trainer)) in
    trainer_train (set_t_args args trainer) f3 = (inr tt, f4) ∧
    trainer_save_model (set_t_args args trainer)
      (best_model_path (fixed (self s))) f5 = (inr tt, f6) ∧
    self s' = train_self a (self s) ∧
    trace (world s') =
      trace (world s)
      ++ [EvMakedirs d; EvTrainerInit (t_args trainer);
          EvHyperparameterSearch (search_call a space);
          EvWriteFile (best_run_hyperparameters_path (fixed (self s))) text]
      ++ ((fun nv => EvSetattr nv.1 nv.2) <$> hp)
      ++ [EvSetattr "evaluation_strategy" (VStr "no");
          EvTrain args;
          EvSaveModel (best_model_path (fixed (self s)))].
Proof.
  intros [(e & _ & [=])|(trainer & s1 & Hsetup & Hrest)]%train_cases.
  pose proof (train_setup_spec _ _ _ _ Hsetup) as [Hkept Hpost].
  destruct Hpost as (d & Hself & Hod & _ & _ & _ & _ & Htr).
  destruct Hrest as [(e & _ & [=] & _)|(space & x & f' & Hdef & Hhs & Hrest)].
  destruct x as [e|hp]; simpl in Hrest; [by destruct Hrest |].
  apply finetune_best_spec in Hrest as (Hself' & _ & evs & Htr' & _ & Hok).
  destruct (Hok eq_refl) as (text & f3 & f4 & f5 & f6 & Hjs & Htrain & Hsave & ->).
  simpl in *. destruct Hkept as (Hfix & _). rewrite Hfix in *.
  exists d, trainer, space, hp, text, (fs (world s1)), f', f3, f4, f5, f6.
  split_and!; try done.
  - rewrite Hsetup. f_equal. destruct s1 as [t1 [fs1 tr1]]; simpl in *.
    by rewrite Hself, Htr.
  - by rewrite <- Hself.
  - by rewrite Hself', <- Hself.
  - rewrite Htr', Htr. by rewrite <- !app_assoc.
Qed.
End train_run.

Lemma toy_train :
  @train Toy.types Toy.plain train_defaults (Toy.built Toy.plain) =
  (Ok tt, toy_trained).
Proof. vm_compute. reflexivity. Qed.

Section train_properties.
Context {T : ExtTypes} {X : Externals}.

(** X1: once the output directory, the splits and the [Trainer] are set
    up, a learning-rate range whose length is not 2 makes [train] raise
    the assertion of line 159 with the range in its message, and an
    epoch range whose length is not 2 (the learning-rate range being
    fine) that of line 161; the run ends in the state the set-up left,
    in which the only new events are the creation of the directory and
    the construction of the [Trainer]: no search was started. *)
Theorem train_rejects_malformed_range a s trainer s1 :
  train_setup a s = (Ok trainer, s1) →
  (length (default default_search_range_lr (tr_search_range_lr a)) ≠ 2%nat →
   train a s =
   (Raise (AssertionError "len(search_range_lr) should be 2: "
             (default default_search_range_lr (tr_search_range_lr a))), s1)) ∧
  (length (default default_search_range_lr (tr_search_range_lr a)) = 2%nat →
   length (default default_search_range_epoch (tr_search_range_epoch a))
     ≠ 2%nat →
   train a s =
   (Raise (AssertionError "len(search_range_epoch) should be 2: "
             (default default_search_range_epoch (tr_search_range_epoch a))),
    s1)) ∧
  ∃ d,
    trace (world s1) =
    trace (world s) ++ [EvMakedirs d; EvTrainerInit (t_args trainer)].
Proof.
  intros Hsetup. split_and!.
  - intros Hlr. unfold train. rewrite (bind_ok _ _ _ _ _ Hsetup).
    by rewrite define_search_space_lr.
  - intros Hlr Hep. unfold train. rewrite (bind_ok _ _ _ _ _ Hsetup).
    by rewrite define_search_space_epoch.
  - apply train_setup_spec in Hsetup as [_ (d & _ & _ & _ & _ & _ & _ & Htr)].
    by exists d.
Qed.

(** X2: the epoch counts offered to a search that [train] starts, for
    the epoch range [[lo, hi]] (the one supplied, or the default), are
    the integers from [lo] to [hi - 1]: [hi] is not among them, and
    there is none when [hi <= lo].  Every search event that a run of
    [train] adds to the trace carries this candidate list. *)
Theorem train_epoch_candidates a s r s' lo hi :
  default default_search_range_epoch (tr_search_range_epoch a) =
    [VInt lo; VInt hi] →
  train a s = (r, s') →
  ∃ evs,
    trace (world s') = trace (world s) ++ evs ∧
    ∀ c, EvHyperparameterSearch c ∈ evs →
      ∃ cands,
        PyDict.get "num_train_epochs" (hp_space c) = Some (Choice cands) ∧
        cands = VInt <$> py_range lo hi ∧
        (∀ x, VInt x ∈ cands ↔ lo ≤ x < hi) ∧
        (hi ≤ lo → cands = []).
Proof.
  intros Hep (evs & Htr & Hsearch)%train_searches.
  exists evs. split; [done |]. intros c Hc.
  destruct (Hsearch c Hc) as (space & Hdef & ->).
  exists (VInt <$> py_range lo hi). split_and!.
  - simpl. by eapply define_search_space_epochs.
  - done.
  - intros x. rewrite <- py_range_elem. split.
    + by intros (y & [= ->] & Hy)%list_elem_of_fmap.
    + intros Hx. apply list_elem_of_fmap. by exists x.
  - intros Hle. by rewrite py_range_empty.
Qed.



(** X5: whatever its outcome, [train] assigns no attribute of the object
    besides [output_dir], [split_train] and [split_validation]: the
    model of the object, the language model, the label mapping, the two
    paths fixed at construction, the dataset name and type and the test
    split are as before (the fine-tuned model is on disk only); and
    after a successful run those three attributes hold the values that
    were supplied, or their former values where none was. *)
Theorem train_assigns_only_its_arguments a s r s' :
  train a s = (r, s') →
  fixed (self s') = fixed (self s) ∧
  model (self s') = model (self s) ∧
  dataset_name (self s') = dataset_name (self s) ∧
  dataset_type (self s') = dataset_type (self s) ∧
  split_test (self s') = split_test (self s) ∧
  (r = Ok tt →
   output_dir (self s') =
     from_option Some (output_dir (self s)) (tr_output_dir a) ∧
   split_train (self s') =
     from_option Some (split_train (self s)) (tr_split_train a) ∧
   split_validation (self s') =
     from_option Some (split_validation (self s)) (tr_split_validation a)).
Proof.
  intros Hrun.
  assert (Hkept : kept (self s) (self s')).
  { apply train_cases in Hrun
      as [(e & Hsetup & ->)|(trainer & s1 & Hsetup & Hrest)];
      apply train_setup_spec in Hsetup as [Hkept _]; [done |].
    destruct Hrest as [(e & _ & _ & ->)|(space & x & f' & _ & _ & Hrest)];
      [done |].
    destruct x as [e|hp]; simpl in Hrest; [by destruct Hrest as [_ ->] |].
    apply finetune_best_spec in Hrest as (Hself & _). by rewrite Hself. }
  destruct Hkept as (? & ? & ? & ? & ?). split_and!; try done.
  intros ->. apply train_ok in Hrun
    as (d & trainer & space & hp & text & f1 & f2 & f3 & f4 & f5 & f6 &
        _ & _ & _ & _ & _ & _ & _ & -> & _).
  unfold train_self, assigned.
  by destruct (tr_output_dir a), (tr_split_train a), (tr_split_validation a).
Qed.
End train_properties.

Lemma train_rejects_malformed_range_toy :
  (@train Toy.types Toy.plain toy_one_bound (Toy.built Toy.plain)).1 =
    Raise (AssertionError "len(search_range_lr) should be 2: "
             [VFloat 0x1.4f8b588e368f1p-17]) ∧
  ∃ d (trainer : @TrainerObj Toy.types),
    trace (world (@train_setup Toy.types Toy.plain toy_one_bound
                    (Toy.built Toy.plain)).2) =
    trace (world (Toy.built Toy.plain))
    ++ [EvMakedirs d; EvTrainerInit (t_args trainer)].
Proof.
  destruct (@train_setup Toy.types Toy.plain toy_one_bound
              (Toy.built Toy.plain)) as [[e|trainer] s1] eqn:Hsetup;
    [vm_compute in Hsetup; discriminate |].
  destruct (@train_rejects_malformed_range Toy.types Toy.plain toy_one_bound
              (Toy.built Toy.plain) trainer s1 Hsetup) as (Hlr & _ & d & Htr).
  split.
  - rewrite Hlr; [reflexivity | vm_compute; lia].
  - by exists d, trainer.
Defined.

Lemma train_epoch_candidates_toy :
  ∃ evs,
    trace (world (@train Toy.types Toy.plain toy_epochs
                    (Toy.built Toy.plain)).2) =
    trace (world (Toy.built Toy.plain)) ++ evs ∧
    ∀ c, EvHyperparameterSearch c ∈ evs →
      ∃ cands,
        PyDict.get "num_train_epochs" (hp_space c) = Some (Choice cands) ∧
        cands = VInt <$> py_range 2 5 ∧
        (∀ x, VInt x ∈ cands ↔ 2 ≤ x < 5) ∧
        (5 ≤ 2 → cands = []).
Proof.
  apply (@train_epoch_candidates Toy.types Toy.plain toy_epochs
           (Toy.built Toy.plain)
           (@train Toy.types Toy.plain toy_epochs (Toy.built Toy.plain)).1
           _ 2 5).
  - reflexivity.
  - by destruct (@train Toy.types Toy.plain toy_epochs (Toy.built Toy.plain)).
Defined.



Lemma train_assigns_only_its_arguments_toy :
  fixed (self toy_trained) = fixed (Toy.trainer Toy.plain) ∧
  model (self toy_trained) = "roberta" ∧
  dataset_name (self toy_trained) = None ∧
  dataset_type (self toy_trained) = None ∧
  split_test (self toy_trained) = Some "test" ∧
  ((Ok tt : @Res (@Err Toy.types) unit) = Ok tt →
   output_dir (self toy_trained) = Some "out" ∧
   split_train (self toy_trained) = Some "train" ∧
   split_validation (self toy_trained) = Some "validation").
Proof.
  exact (@train_assigns_only_its_arguments Toy.types Toy.plain train_defaults
           (Toy.built Toy.plain) (Ok tt) toy_trained toy_train).
Defined.

(** ** Properties of [evaluate] *)

Section evaluate_run.
Context {T : ExtTypes} {X : Externals}.

Lemma no_write_nil : no_write [].
Proof. intros p t. apply not_elem_of_nil. Qed.

Lemma no_write_cons e evs :
  (∀ p t, e ≠ EvWriteFile p t) → no_write evs → no_write (e :: evs).
Proof.
  intros He Hevs p t [Heq|Hin]%elem_of_cons;
    [by apply (He p t) | by apply (Hevs p t)].
Qed.

Lemma evaluate_spec split od s r s' :
  evaluate split od s = (r, s') → evaluate_post split od s r s'.
Proof.
  revert r s'. change (wp (evaluate split od) s (evaluate_post split od s)).
  unfold evaluate, evaluate_post, evaluate_trainer, evaluate_load_args,
    model_source.
  repeat wp_step; (split; [by unfold kept_by_evaluate |]).
  all: repeat match goal with u : () |- _ => destruct u end.
  all: simplify_eq.
  all: try (eexists _, _, _, _, _, _; split_and!;
            [reflexivity
            |first [eassumption | reflexivity]
            |first [eassumption | reflexivity]
            |eassumption | eassumption | eassumption
            |reflexivity | eassumption | reflexivity | trace_eq]).
  all: eexists; split_and!;
         [trace_eq
         |simpl;
          repeat first [apply no_write_nil | apply no_write_cons; [done |]]
         |simpl; intros args' Hin; search_among; done
         |first [by left
                |right; eexists; split;
                   [first [eassumption | reflexivity] | reflexivity]]].
Qed.
End evaluate_run.

Lemma toy_evaluate :
  @evaluate Toy.types Toy.plain None None (Toy.built Toy.plain) =
  (Ok toy_report, toy_evaluated).
Proof. vm_compute. reflexivity. Qed.

Section evaluate_properties.
Context {T : ExtTypes} {X : Externals}.

(** X9: a run of [evaluate] on an object constructed with the output
    location [d0] loads its model with [model_only] set, and from no
    other place than these two: from
    the best-model path [d0/best_model] when that path exists as the
    run starts, from the language model given at construction when it
    does not; this also when another [output_dir] is passed to
    [evaluate], which does not move the path.  A run that returns has
    loaded the model first of all. *)
Theorem evaluate_model_source d0 split od s r s' :
  constructed d0 (self s) →
  evaluate split od s = (r, s') →
  ∃ evs,
    trace (world s') = trace (world s) ++ evs ∧
    (∀ result, r = Ok result → ∃ args rest, evs = EvLoadModel args :: rest) ∧
    ∀ args, EvLoadModel args ∈ evs →
      lm_model_only args = true ∧
      lm_model args =
        if path_exists (pj d0 "best_model") (world s)
        then pj d0 "best_model"
        else language_model (fixed (self s)).
Proof.
  intros (_ & Hbest & _)%constructed_inv [_ Hpost]%evaluate_spec.
  assert (Hsrc : ∀ args,
    args = evaluate_load_args (model_source (self s) (world s))
             (fixed (self s)) →
    lm_model_only args = true ∧
    lm_model args =
      if path_exists (pj d0 "best_model") (world s)
      then pj d0 "best_model"
      else language_model (fixed (self s))).
  { intros args ->. split; [done |]. simpl. unfold model_source.
    rewrite Hbest. by destruct (path_exists _ _). }
  destruct r as [e|result].
  - destruct Hpost as (evs & Htr & _ & Hloads & _).
    exists evs. split_and!; [done | done |].
    intros args Hin. by apply Hsrc, Hloads.
  - destruct Hpost as (d & name & ds & m & metrics & text &
                       _ & _ & _ & _ & _ & _ & _ & _ & _ & Htr).
    eexists. split_and!; [exact Htr | by eauto |].
    intros args Hin. apply Hsrc. search_among; done.
Qed.

(** X10: the mapping that [evaluate] returns is a copy, item by item, of
    what [Trainer.evaluate] returned, whatever its keys: the same
    mapping when the keys of that one are distinct.  The [Trainer] was
    built on the model just loaded, with the test split of the
    tokenized dataset as [eval_dataset] and the metric function
    [compute_metric_all] of the object. *)
Theorem evaluate_returns_engine_metrics split od s result s' :
  evaluate split od s = (Ok result, s') →
  ∃ d name ds metrics,
    output_dir (self s') = Some d ∧
    split_test (self s') = Some name ∧
    PyDict.get name (tokenized_datasets (fixed (self s))) = Some ds ∧
    trainer_evaluate
      (evaluate_trainer (model (self s')) d ds (fixed (self s)))
      (fs (world s)) = inr metrics ∧
    t_compute_metrics
      (evaluate_trainer (model (self s')) d ds (fixed (self s))) =
      compute_metric_all (fixed (self s)) ∧
    result = PyDict.of_items metrics ∧
    (PyDict.wf metrics → result = metrics).
Proof.
  intros [_ (d & name & ds & m & metrics & text & Hself & Hod & Hsplit &
             Hds & _ & Heval & -> & _)]%evaluate_spec.
  exists d, name, ds, metrics. rewrite Hself at 3 4. simpl.
  split_and!; try done.
  intros Hwf. by apply of_items_wf.
Qed.

(** X11: a run of [evaluate] that returns has written its report, as
    [json.dump] renders it, to [metric.json] under the output location:
    the one passed to [evaluate], or that of the object when none is
    passed; the file holds that text when the run ends, and the write is
    the last event of the run. *)
Theorem evaluate_writes_report split od s result s' :
  evaluate split od s = (Ok result, s') →
  ∃ d text pre,
    output_dir (self s') = Some d ∧
    Some d = from_option Some (output_dir (self s)) od ∧
    json_dumps None result = inr text ∧
    fs (world s') !! (d +:+ "/metric.json") = Some (File text) ∧
    trace (world s') = pre ++ [EvWriteFile (d +:+ "/metric.json") text].
Proof.
  intros [_ (d & name & ds & m & metrics & text & Hself & Hod & _ & _ & _ &
             _ & -> & Hjs & Hfs & Htr)]%evaluate_spec.
  exists d, text. eexists. split_and!; [done | | done | |].
  - rewrite <- Hod, Hself. unfold assigned.
    destruct od, split; simpl; try done;
      by destruct (output_dir (self s)).
  - rewrite Hfs. apply lookup_insert_eq.
  - rewrite Htr. exact (app_assoc _ [_; _; _] [_]).
Qed.

(** X12: whatever its outcome, [evaluate] assigns no attribute of the
    object besides [output_dir], [split_test] and [model]; and after a
    run that returns, [model] is the model that [load_model] returned,
    and the two others hold the values passed, or their former values
    where none was. *)
Theorem evaluate_assigns_model split od s r s' :
  evaluate split od s = (r, s') →
  fixed (self s') = fixed (self s) ∧
  dataset_name (self s') = dataset_name (self s) ∧
  dataset_type (self s') = dataset_type (self s) ∧
  split_train (self s') = split_train (self s) ∧
  split_validation (self s') = split_validation (self s) ∧
  (∀ result, r = Ok result →
   load_model_only
     (evaluate_load_args (model_source (self s) (world s)) (fixed (self s)))
     (fs (world s)) = inr (model (self s')) ∧
   output_dir (self s') = from_option Some (output_dir (self s)) od ∧
   split_test (self s') = from_option Some (split_test (self s)) split).
Proof.
  intros [(? & ? & ? & ? & ?) Hpost]%evaluate_spec.
  split_and!; try done.
  intros result ->.
  destruct Hpost as (d & name & ds & m & metrics & text & -> & _ & _ & _ &
                     Hload & _).
  unfold assigned. by destruct od, split.
Qed.


(** X14: with no test split in the object and none passed, [evaluate]
    raises the [KeyError] of the lookup of line 210; by then it has
    loaded a model and assigned it to the object, which keeps it. *)
Theorem evaluate_without_split od s d m :
  split_test (self s) = None →
  from_option Some (output_dir (self s)) od = Some d →
  load_model_only
    (evaluate_load_args (model_source (self s) (world s)) (fixed (self s)))
    (fs (world s)) = inr m →
  training_arguments
    (PyDict.of_items
       [("output_dir", VStr d); ("evaluation_strategy", VStr "no")]) =
    inr tt →
  ∃ s',
    evaluate None od s = (Raise (KeyError None), s') ∧
    model (self s') = m ∧
    trace (world s') =
      trace (world s)
      ++ [EvLoadModel
            (evaluate_load_args (model_source (self s) (world s))
               (fixed (self s)))].
Proof.
  intros Hsplit Hod Hload Hargs.
  unfold evaluate_load_args, model_source in Hload.
  destruct od as [d'|]; simpl in Hod; simplify_eq.
  - eexists. split.
    { unfold evaluate, when_given, assert_output_dir, tokenized_split,
        self_set, self_get, in_world, model_source.
      unfold bind, modify, gets, ret, raise, zoom, log, ask, lift_res.
      simpl. rewrite Hload. simpl. rewrite Hargs. simpl. rewrite Hsplit.
      reflexivity. }
    by split_and!.
  - eexists. split.
    { unfold evaluate, when_given, assert_output_dir, tokenized_split,
        self_set, self_get, in_world, model_source.
      unfold bind, modify, gets, ret, raise, zoom, log, ask, lift_res.
      simpl. rewrite Hod. simpl. rewrite Hload. simpl. rewrite Hargs. simpl.
      rewrite Hsplit. reflexivity. }
    by split_and!.
Qed.
End evaluate_properties.

(** The toy object, trained, is an object of the class; [evaluate] on it
    finds the best model that the toy engine saved. *)
Lemma toy_trained_constructed :
  @constructed Toy.types Toy.plain "out" (self toy_trained).
Proof.
  exact (constructed_train "out" train_defaults (Toy.built Toy.plain) (Ok tt)
           toy_trained (toy_constructed false 0) toy_train).
Qed.

Lemma evaluate_model_source_toy :
  ∃ evs,
    trace (world (@evaluate Toy.types Toy.plain None None toy_trained).2) =
    trace (world toy_trained) ++ evs ∧
    (∀ result,
       (@evaluate Toy.types Toy.plain None None toy_trained).1 = Ok result →
       ∃ args rest, evs = EvLoadModel args :: rest) ∧
    ∀ args, EvLoadModel args ∈ evs →
      lm_model_only args = true ∧
      lm_model args =
        if path_exists (pj "out" "best_model") (world toy_trained)
        then pj "out" "best_model"
        else language_model (fixed (self toy_trained)).
Proof.
  apply (@evaluate_model_source Toy.types Toy.plain "out" None None
           toy_trained).
  - exact toy_trained_constructed.
  - by destruct (@evaluate Toy.types Toy.plain None None toy_trained).
Defined.

Lemma evaluate_returns_engine_metrics_toy :
  ∃ d name (ds : @Split Toy.types) metrics,
    output_dir (self toy_evaluated) = Some d ∧
    split_test (self toy_evaluated) = Some name ∧
    PyDict.get name (tokenized_datasets (fixed (Toy.trainer Toy.plain))) =
      Some ds ∧
    @trainer_evaluate Toy.types Toy.plain
      (evaluate_trainer (model (self toy_evaluated)) d ds
         (fixed (Toy.trainer Toy.plain)))
      (fs (world (Toy.built Toy.plain))) = inr metrics ∧
    t_compute_metrics
      (evaluate_trainer (model (self toy_evaluated)) d ds
         (fixed (Toy.trainer Toy.plain))) =
      compute_metric_all (fixed (Toy.trainer Toy.plain)) ∧
    toy_report = PyDict.of_items metrics ∧
    (PyDict.wf metrics → toy_report = metrics).
Proof.
  exact (@evaluate_returns_engine_metrics Toy.types Toy.plain None None
           (Toy.built Toy.plain) toy_report toy_evaluated toy_evaluate).
Defined.

Lemma evaluate_writes_report_toy :
  ∃ d text pre,
    output_dir (self toy_evaluated) = Some d ∧
    Some d = Some "out" ∧
    @json_dumps Toy.types Toy.plain None toy_report = inr text ∧
    fs (world toy_evaluated) !! (d +:+ "/metric.json") = Some (File text) ∧
    trace (world toy_evaluated) =
      pre ++ [EvWriteFile (d +:+ "/metric.json") text].
Proof.
  exact (@evaluate_writes_report Toy.types Toy.plain None None
           (Toy.built Toy.plain) toy_report toy_evaluated toy_evaluate).
Defined.

Lemma evaluate_assigns_model_toy :
  fixed (self toy_evaluated) = fixed (Toy.trainer Toy.plain) ∧
  dataset_name (self toy_evaluated) = None ∧
  dataset_type (self toy_evaluated) = None ∧
  split_train (self toy_evaluated) = Some "train" ∧
  split_validation (self toy_evaluated) = Some "validation" ∧
  (∀ result, (Ok toy_report : @Res (@Err Toy.types) _) = Ok result →
   @load_model_only Toy.types Toy.plain
     (evaluate_load_args
        (model_source (Toy.trainer Toy.plain) Toy.built_world)
        (fixed (Toy.trainer Toy.plain)))
     (fs Toy.built_world) = inr (model (self toy_evaluated)) ∧
   output_dir (self toy_evaluated) = Some "out" ∧
   split_test (self toy_evaluated) = Some "test").
Proof.
  exact (@evaluate_assigns_model Toy.types Toy.plain None None
           (Toy.built Toy.plain) (Ok toy_report) toy_evaluated toy_evaluate).
Defined.


Lemma evaluate_without_split_toy :
  ∃ s',
    @evaluate Toy.types Toy.plain None None toy_no_split =
      (Raise (KeyError None), s') ∧
    model (self s') = "roberta" ∧
    trace (world s') =
      trace (world toy_no_split)
      ++ [EvLoadModel
            (evaluate_load_args
               (model_source (self toy_no_split) (world toy_no_split))
               (fixed (self toy_no_split)))].
Proof.
  apply (@evaluate_without_split Toy.types Toy.plain None toy_no_split "out"
           "roberta"); reflexivity.
Defined.

(** ** Properties of the metric functions (lines 81 to 113) *)

Lemma res_map_ok {E A B : Type} (f : A → Res E B) (l : list A) (ys : list B) :
  res_map f l = Ok ys → Forall2 (fun y x => f x = Ok y) ys l.
Proof.
  revert ys. induction l as [|x l IH]; intros ys; simpl.
  - intros [= <-]. constructor.
  - destruct (f x) as [e|y] eqn:Hfx; simpl; [done |].
    destruct (res_map f l) as [e|ys'] eqn:Hmap; simpl; [done |].
    intros [= <-]. constructor; [done | by apply IH].
Qed.

Lemma res_map_raise {E A B : Type} (f : A → Res E B) (l : list A) (e : E) :
  res_map f l = Raise e → ∃ x, x ∈ l ∧ f x = Raise e.
Proof.
  induction l as [|x l IH]; simpl; [done |].
  destruct (f x) as [e'|y] eqn:Hfx; simpl.
  - intros [= <-]. exists x. split; [by left | done].
  - destruct (res_map f l) as [e'|ys'] eqn:Hmap; simpl; [|done].
    intros [= <-]. destruct (IH eq_refl) as (x' & Hin & Hx').
    exists x'. split; [by right | done].
Qed.

Section metric_properties.
Context {T : ExtTypes} {X : Externals}.

(** X15: when [compute_metric_all] returns, the mapping has the three
    keys [f1], [f1_macro] and [accuracy], in this order: the [f1] item
    of the F1 metric computed with the micro average, its [f1] item
    with the macro average, and the [accuracy] item of the accuracy
    metric, the three on the same predictions. *)
Theorem compute_metric_all_keys multi metric_accuracy metric_f1 logits labels m :
  compute_metric_all_of multi metric_accuracy metric_f1 (logits, labels) =
    Ok m →
  ∃ p r1 r2 r3 v1 v2 v3,
    predict multi logits = Ok p ∧
    metric_compute metric_f1 p labels (Some "micro") = inr r1 ∧
    PyDict.get "f1" r1 = Some v1 ∧
    metric_compute metric_f1 p labels (Some "macro") = inr r2 ∧
    PyDict.get "f1" r2 = Some v2 ∧
    metric_compute metric_accuracy p labels None = inr r3 ∧
    PyDict.get "accuracy" r3 = Some v3 ∧
    m = [("f1", v1); ("f1_macro", v2); ("accuracy", v3)] ∧
    PyDict.keys m = ["f1"; "f1_macro"; "accuracy"].
Proof.
  unfold compute_metric_all_of, compute, getitem, res_bind, from_ext.
  intros Hm.
  destruct (predict multi logits) as [?|p] eqn:Hp; [done |].
  destruct (metric_compute metric_f1 p labels (Some "micro")) as [?|r1]
    eqn:Hr1; [done |].
  destruct (PyDict.get "f1" r1) as [v1|] eqn:Hv1; [|done].
  destruct (metric_compute metric_f1 p labels (Some "macro")) as [?|r2]
    eqn:Hr2; [done |].
  destruct (PyDict.get "f1" r2) as [v2|] eqn:Hv2; [|done].
  destruct (metric_compute metric_accuracy p labels None) as [?|r3] eqn:Hr3;
    [done |].
  destruct (PyDict.get "accuracy" r3) as [v3|] eqn:Hv3; [|done].
  injection Hm as <-.
  by exists p, r1, r2, r3, v1, v2, v3.
Qed.

(** X16: a result of [metric.compute] that lacks the item the function
    reads makes [compute_metric_all] raise the [KeyError] of that item:
    ['f1'] for the F1 metric with the micro average. *)
Theorem compute_metric_all_missing_f1 multi metric_accuracy metric_f1
    logits labels p r1 :
  predict multi logits = Ok p →
  metric_compute metric_f1 p labels (Some "micro") = inr r1 →
  "f1" ∉ PyDict.keys r1 →
  compute_metric_all_of multi metric_accuracy metric_f1 (logits, labels) =
    Raise (KeyError (Some "f1")).
Proof.
  intros Hp Hr1 Hkey%get_None.
  unfold compute_metric_all_of, compute, getitem, res_bind, from_ext.
  by rewrite Hp, Hr1, Hkey.
Qed.

(** X17: in multi-label mode the predictions have the shape of the
    logits: one row per row of logits and, within a row, one entry per
    logit, which is the thresholded sigmoid of that logit and is 0 or
    1. *)
Theorem predict_multi_label_shape logits p :
  predict true logits = Ok p →
  ∃ rows,
    p = PredRows rows ∧
    length rows = length logits ∧
    Forall2
      (fun row l =>
         length row = length l ∧
         Forall2 (fun z j => threshold j = Ok z ∧ (z = 0 ∨ z = 1)) row l)
      rows logits.
Proof.
  unfold predict, res_bind.
  destruct (res_map _ logits) as [?|rows] eqn:Hmap; [done |].
  intros [= <-]. exists rows.
  apply res_map_ok in Hmap. split_and!; [done | by eapply Forall2_length |].
  eapply Forall2_impl; [exact Hmap |]. simpl.
  intros row l Hrow%res_map_ok. split; [by eapply Forall2_length |].
  eapply Forall2_impl; [exact Hrow |]. simpl.
  intros z j Hz. split; [done |].
  unfold threshold, res_bind in Hz. destruct (sigmoid j); [done |].
  injection Hz as <-. by destruct (_ <? _)%float; [right | left].
Qed.

End metric_properties.

Lemma compute_metric_all_keys_toy :
  ∃ p r1 r2 r3 v1 v2 v3,
    @predict Toy.types Toy.plain false Toy.eval_pred.1 = Ok p ∧
    @metric_compute Toy.types Toy.plain "f1" p tt (Some "micro") = inr r1 ∧
    PyDict.get "f1" r1 = Some v1 ∧
    @metric_compute Toy.types Toy.plain "f1" p tt (Some "macro") = inr r2 ∧
    PyDict.get "f1" r2 = Some v2 ∧
    @metric_compute Toy.types Toy.plain "accuracy" p tt None = inr r3 ∧
    PyDict.get "accuracy" r3 = Some v3 ∧
    toy_report = [("f1", v1); ("f1_macro", v2); ("accuracy", v3)] ∧
    PyDict.keys toy_report = ["f1"; "f1_macro"; "accuracy"].
Proof.
  apply (@compute_metric_all_keys Toy.types Toy.plain false "accuracy" "f1"
           Toy.eval_pred.1 tt toy_report).
  reflexivity.
Defined.

Lemma compute_metric_all_missing_f1_toy :
  @compute_metric_all_of Toy.types Toy.plain false "accuracy" "F1"
    Toy.eval_pred = Raise (KeyError (Some "f1")).
Proof.
  apply (@compute_metric_all_missing_f1 Toy.types Toy.plain false "accuracy"
           "F1" Toy.eval_pred.1 tt (PredClasses [0; 0; 0])
           [("F1", VFloat 0.75)]).
  - reflexivity.
  - reflexivity.
  - by intros [[=]|[]%elem_of_nil]%elem_of_cons.
Defined.

Lemma predict_multi_label_shape_toy :
  ∃ rows,
    PredRows [[1; 0]; [1; 1]; [0; 0]] = PredRows rows ∧
    length rows = length Toy.eval_pred.1 ∧
    Forall2
      (fun row l =>
         length row = length l ∧
         Forall2
           (fun z j =>
              @threshold Toy.types Toy.plain j = Ok z ∧ (z = 0 ∨ z = 1))
           row l)
      rows Toy.eval_pred.1.
Proof.
  apply (@predict_multi_label_shape Toy.types Toy.plain Toy.eval_pred.1).
  vm_compute. reflexivity.
Defined.

(** ** Properties of the construction (lines 26 to 74) *)

Section init_run.
Context {T : ExtTypes} {X : Externals}.

Lemma init_spec lm ds l2i o w r w' :
  init lm ds l2i o w = (r, w') → init_run_post lm ds l2i o w r w'.
Proof.
  revert r w'. change (wp (init lm ds l2i o) w (init_run_post lm ds l2i o w)).
  unfold init, init_run_post, init_load_args, join_opt.
  repeat wp_step; (split; [done |]).
  all: rewrite <- ?app_assoc; simpl.
  all: try by eauto.
  destruct a as [[cfg tok] m]. exists cfg, tok, m. eexists.
  by split_and!.
Qed.

(** X18: when [__init__] returns, it has loaded the language model
    once, for sequence classification, with the label configuration, and
    then tokenized the dataset with the tokenizer of that load and the
    maximal length given, in this order; the object holds the
    configuration, tokenizer and model of that load, the tokenized
    dataset, and the maximal length and the three splits as passed. *)
Theorem init_loads_then_tokenizes lm ds l2i o w t w' :
  init lm ds l2i o w = (Ok t, w') →
  trace w' =
    trace w ++ [EvLoadModel (init_load_args lm l2i o);
                EvDatasetMap (i_max_length o)] ∧
  load_model (init_load_args lm l2i o) (fs w) =
    inr (config (fixed t), tokenizer (fixed t), model t) ∧
  dataset_map (ds_raw ds) (tokenizer (fixed t)) (i_max_length o) =
    inr (tokenized_datasets (fixed t)) ∧
  max_length (fixed t) = i_max_length o ∧
  split_test t = i_split_test o ∧
  split_train t = i_split_train o ∧
  split_validation t = i_split_validation o.
Proof.
  intros [_ (cfg & tok & m & tokenized & Hload & Hmap & <- & <- & <- & <- &
             _ & ? & _ & ? & ? & ? & _ & _ & Htr)]%init_spec.
  by split_and!.
Qed.

(** X19: the attributes [dataset_name] and [dataset_type] of the dataset
    win over the arguments of the same names: when the dataset has the
    attribute, the object takes its value, also when that value is
    [None] and an argument was passed; the argument is used only when
    the dataset has no such attribute. *)
Theorem init_dataset_attributes_win lm ds l2i o w t w' :
  init lm ds l2i o w = (Ok t, w') →
  (∀ v, attr_dataset_name ds = Some v → dataset_name t = v) ∧
  (attr_dataset_name ds = None → dataset_name t = i_dataset_name o) ∧
  (∀ v, attr_dataset_type ds = Some v → dataset_type t = v) ∧
  (attr_dataset_type ds = None → dataset_type t = i_dataset_type o).
Proof.
  intros [_ (cfg & tok & m & tokenized & _ & _ & _ & _ & _ & _ & _ & _ & _ &
             _ & _ & _ & -> & -> & _)]%init_spec.
  split_and!; by intros; simplify_option_eq.
Qed.

End init_run.

Lemma init_loads_then_tokenizes_toy :
  trace Toy.built_world =
    trace Toy.empty_world
    ++ [EvLoadModel (init_load_args "roberta" Toy.labels Toy.options);
        EvDatasetMap 128] ∧
  @load_model Toy.types Toy.plain
    (init_load_args "roberta" Toy.labels Toy.options) (fs Toy.empty_world) =
    inr (config (fixed (Toy.trainer Toy.plain)),
         tokenizer (fixed (Toy.trainer Toy.plain)),
         model (Toy.trainer Toy.plain)) ∧
  @dataset_map Toy.types Toy.plain (ds_raw Toy.dataset)
    (tokenizer (fixed (Toy.trainer Toy.plain))) 128 =
    inr (tokenized_datasets (fixed (Toy.trainer Toy.plain))) ∧
  max_length (fixed (Toy.trainer Toy.plain)) = 128 ∧
  split_test (Toy.trainer Toy.plain) = Some "test" ∧
  split_train (Toy.trainer Toy.plain) = Some "train" ∧
  split_validation (Toy.trainer Toy.plain) = Some "validation".
Proof.
  exact (@init_loads_then_tokenizes Toy.types Toy.plain "roberta" Toy.dataset
           Toy.labels Toy.options Toy.empty_world (Toy.trainer Toy.plain)
           Toy.built_world (toy_init false 0)).
Defined.

Lemma init_dataset_attributes_win_toy :
  ∃ t,
    (@init Toy.types Toy.plain "roberta" toy_named_dataset Toy.labels
       toy_named_options Toy.empty_world).1 = Ok t ∧
    dataset_name t = None ∧ dataset_type t = Some "sentiment".
Proof.
  destruct (@init Toy.types Toy.plain "roberta" toy_named_dataset Toy.labels
              toy_named_options Toy.empty_world) as [[e|t] w'] eqn:Hinit;
    [vm_compute in Hinit; discriminate |].
  destruct (@init_dataset_attributes_win Toy.types Toy.plain "roberta"
              toy_named_dataset Toy.labels toy_named_options Toy.empty_world
              t w' Hinit) as (Hname & _ & _ & Htype).
  exists t. split_and!; [done | by apply Hname | by apply Htype].
Defined.

(** ** Properties of [push_to_hub] *)

Section push_run.
Context {T : ExtTypes} {X : Externals}.

Lemma no_shell_nil : no_shell [].
Proof. intros c st. apply not_elem_of_nil. Qed.

Lemma no_shell_cons e evs :
  (∀ c st, e ≠ EvSystem c st) → no_shell evs → no_shell (e :: evs).
Proof.
  intros He Hevs c st [Heq|Hin]%elem_of_cons;
    [by apply (He c st) | by apply (Hevs c st)].
Qed.

Lemma path_exists_true p w : path_exists p w = true → is_Some (fs w !! p).
Proof. unfold path_exists. apply bool_decide_eq_true. Qed.

Lemma path_exists_false p w : path_exists p w = false → fs w !! p = None.
Proof.
  unfold path_exists. intros Hno%bool_decide_eq_false.
  by apply eq_None_not_Some.
Qed.

Lemma push_prepare_spec org alias a s r s1 :
  push_prepare org alias a s = (r, s1) → push_prepare_post org alias a s r s1.
Proof.
  revert r s1.
  change (wp (push_prepare org alias a) s (push_prepare_post org alias a s)).
  unfold push_prepare, push_prepare_post, push_self, readme_args.
  repeat wp_step; (split; [done |]); (split; [done |]).
  all: repeat match goal with u : () |- _ => destruct u end.
  all: simplify_eq.
  all: eexists; split_and!;
         [trace_eq
         |simpl;
          repeat first [apply no_shell_nil | apply no_shell_cons; [done |]]
         |try done].
  all: eexists _, _, _; split_and!;
         [reflexivity | first [eassumption | reflexivity]
         |eassumption | eassumption |].
  all: match goal with
       | H : path_exists _ _ = true |- _ =>
           left; split_and!;
             [exact (path_exists_true _ _ H) | eassumption | reflexivity]
       | H : path_exists _ _ = false |- _ =>
           right; split_and!;
             [exact (path_exists_false _ _ H) | reflexivity | reflexivity]
       end.
Qed.
End push_run.

Section push_properties.
Context {T : ExtTypes} {X : Externals}.

(** A run of [push_to_hub] is a run of lines 228 to 259 followed, when
    they return, by the shell command. *)
Lemma push_to_hub_cases org alias a s r s' :
  push_to_hub org alias a s = (r, s') →
  (∃ e, push_prepare org alias a s = (Raise e, s') ∧ r = Raise e) ∨
  ∃ s1 status f',
    push_prepare org alias a s = (Ok tt, s1) ∧
    os_system (publish_command alias) (fs (world s1)) = (status, f') ∧
    r = Ok tt ∧
    s' = {| self := self s1;
            world :=
              add_event (EvSystem (publish_command alias) status)
                (set_fs f' (world s1)) |}.
Proof.
  unfold push_to_hub. intros Hrun.
  apply bind_inv in Hrun as [(e & Hprep & ->)|([] & s1 & Hprep & Hrun)];
    [left; eauto |].
  right. exists s1.
  unfold bind, in_world, zoom, run_shell, ret in Hrun.
  destruct (os_system (publish_command alias) (fs (world s1)))
    as [status f'] eqn:Hsys.
  exists status, f'. by simplify_eq.
Qed.

(** X20: the exit status of the shell command of lines 260 and 261 is
    dropped.  A run of [push_to_hub] that raises has not reached the
    shell: the exception comes from an earlier step.  A run that reaches
    the shell returns normally whatever status [os.system] reports, be
    it that of a failed [git push]; the command is the last event of
    the run. *)
Theorem push_to_hub_drops_shell_status org alias a s r s' :
  push_to_hub org alias a s = (r, s') →
  ∃ evs,
    trace (world s') = trace (world s) ++ evs ∧
    match r with
    | Raise e => ∀ command status, EvSystem command status ∉ evs
    | Ok _ =>
        ∃ pre status f1,
          evs = pre ++ [EvSystem (publish_command alias) status] ∧
          (∀ command status', EvSystem command status' ∉ pre) ∧
          os_system (publish_command alias) f1 = (status, fs (world s'))
    end.
Proof.
  intros [(e & Hprep & ->)|(s1 & status & f' & Hprep & Hsys & -> & ->)]
    %push_to_hub_cases;
    apply push_prepare_spec in Hprep as (_ & _ & evs & Htr & Hno & _).
  - by exists evs.
  - exists (evs ++ [EvSystem (publish_command alias) status]). simpl.
    split; [by rewrite Htr, app_assoc |].
    by exists evs, status, (fs (world s1)).
Qed.

(** X21: a run of [push_to_hub] that returns has, in this order:
    created the repository [model_alias] of the organization; asked for
    the model card of [organization/model_alias], with [metric.json]
    under the output location as metric file and the dataset name and
    type, language model and splits of the object as they are after the
    assignments of the call; written that card to
    [model_alias/README.md]; copied the file of the best hyperparameters
    into [model_alias] when, and only when, it exists at its path fixed
    at construction; and run the shell command. *)
Theorem push_to_hub_success_order org alias a s s' :
  push_to_hub org alias a s = (Ok tt, s') →
  ∃ d readme written status,
    output_dir (self s') = Some d ∧
    get_readme (readme_args org alias d (self s')) (fs (world s)) =
      inr readme ∧
    written =
      <[alias +:+ "/README.md" := File readme]>
        (<[alias +:+ "/README.md" := File ""]> (fs (world s))) ∧
    trace (world s') =
      trace (world s)
      ++ [EvCreateRepo alias org;
          EvGetReadme (readme_args org alias d (self s'));
          EvWriteFile (alias +:+ "/README.md") readme]
      ++ (if decide (is_Some
                       (written !! best_run_hyperparameters_path
                                     (fixed (self s))))
          then [EvCopy (best_run_hyperparameters_path (fixed (self s)))
                  (pj alias "best_run_hyperparameters.json")]
          else [])
      ++ [EvSystem (publish_command alias) status].
Proof.
  intros [(e & _ & [=])|(s1 & status & f' & Hprep & Hsys & _ & ->)]
    %push_to_hub_cases.
  apply push_prepare_spec in Hprep
    as (_ & _ & evs & Htr & _ & d & url & readme & Hself & Hod & _ & Hreadme &
        Hcopy).
  exists d, readme. eexists. exists status. simpl.
  split_and!; [done | done | reflexivity |].
  rewrite Htr. rewrite <- app_assoc. f_equal.
  destruct Hcopy as [(Hsome & _ & ->)|(Hnone & _ & ->)].
  - rewrite decide_True by done. by rewrite <- !app_assoc.
  - rewrite decide_False; [done |]. rewrite Hnone. by intros [? ?].
Qed.

(** X22: whatever its outcome, [push_to_hub] leaves the model of the
    object and the attributes fixed at construction as they are; after a
    run that returns, the dataset name and type, the output location and
    the three splits hold the values passed, or their former values
    where none was. *)
Theorem push_to_hub_assigns_only_its_arguments org alias a s r s' :
  push_to_hub org alias a s = (r, s') →
  fixed (self s') = fixed (self s) ∧
  model (self s') = model (self s) ∧
  (r = Ok tt →
   dataset_name (self s') =
     from_option Some (dataset_name (self s)) (p_dataset_name a) ∧
   dataset_type (self s') =
     from_option Some (dataset_type (self s)) (p_dataset_type a) ∧
   output_dir (self s') =
     from_option Some (output_dir (self s)) (p_output_dir a) ∧
   split_train (self s') =
     from_option Some (split_train (self s)) (p_split_train a) ∧
   split_validation (self s') =
     from_option Some (split_validation (self s)) (p_split_validation a) ∧
   split_test (self s') =
     from_option Some (split_test (self s)) (p_split_test a)).
Proof.
  intros [(e & Hprep & ->)|(s1 & status & f' & Hprep & Hsys & -> & ->)]
    %push_to_hub_cases;
    apply push_prepare_spec in Hprep as (Hfix & Hmodel & evs & _ & _ & Hok);
    (split; [done |]); (split; [done |]); [done |].
  intros _. destruct Hok as (d & url & readme & Hself & _). simpl.
  rewrite Hself. unfold push_self, assigned.
  by destruct (p_dataset_name a), (p_dataset_type a), (p_output_dir a),
    (p_split_train a), (p_split_validation a), (p_split_test a).
Qed.
End push_properties.

Section without_output_dir.
Context {T : ExtTypes} {X : Externals}.

(** X23: on an object whose output location is [None], a call that
    passes none raises the assertion ['output_dir should be
    specified.'] before anything happens in the world.  [train] and
    [evaluate] leave the object as it is; [push_to_hub] has by then
    assigned the dataset name and type that were passed. *)
Theorem assertion_without_output_dir s :
  output_dir (self s) = None →
  (∀ a, tr_output_dir a = None →
     train a s =
     (Raise (AssertionError "output_dir should be specified." []), s)) ∧
  (∀ split,
     evaluate split None s =
     (Raise (AssertionError "output_dir should be specified." []), s)) ∧
  (∀ org alias a, p_output_dir a = None →
     push_to_hub org alias a s =
     (Raise (AssertionError "output_dir should be specified." []),
      {| self :=
           assigned set_dataset_type (p_dataset_type a)
             (assigned set_dataset_name (p_dataset_name a) (self s));
         world := world s |})).
Proof.
  intros Hself. destruct s as [t w]. simpl in Hself. split_and!.
  - intros a Harg.
    unfold train, train_setup, assert_output_dir, self_get, gets, bind.
    rewrite Harg. simpl. by rewrite Hself.
  - intros split.
    unfold evaluate, assert_output_dir, self_get, gets, bind. simpl.
    by rewrite Hself.
  - intros org alias a Harg.
    unfold push_to_hub, push_prepare, assert_output_dir, self_get, gets, bind.
    rewrite Harg.
    destruct (p_dataset_name a), (p_dataset_type a); simpl; by rewrite Hself.
Qed.
End without_output_dir.

Section composition.
Context {T : ExtTypes} {X : Externals}.

(** X24: [train] followed by [evaluate] on an object constructed with
    the output location [d0].  When [train] is passed another output
    location [d], it still saves the fine-tuned model at
    [d0/best_model], and that is the path where a later [evaluate]
    looks for it: the model is loaded from there when the path exists
    as [evaluate] starts, and from the language model otherwise.  The
    report of that [evaluate], called without an output location, goes
    to [d/metric.json]. *)
Theorem evaluate_after_train d0 d a s s1 split result s2 :
  constructed d0 (self s) →
  tr_output_dir a = Some d →
  train a s = (Ok tt, s1) →
  evaluate split None s1 = (Ok result, s2) →
  (∃ pre, trace (world s1) = pre ++ [EvSaveModel (pj d0 "best_model")]) ∧
  (∃ args rest,
     trace (world s2) = trace (world s1) ++ EvLoadModel args :: rest ∧
     lm_model args =
       if path_exists (pj d0 "best_model") (world s1)
       then pj d0 "best_model"
       else language_model (fixed (self s))) ∧
  ∃ text,
    json_dumps None result = inr text ∧
    fs (world s2) !! (d +:+ "/metric.json") = Some (File text).
Proof.
  intros (_ & Hbest & _)%constructed_inv Harg Htrain Heval.
  pose proof (train_ok _ _ _ Htrain)
    as (d1 & trainer & space & hp & text & f1 & f2 & f3 & f4 & f5 & f6 &
        _ & Hod & _ & _ & _ & _ & _ & Hself & Htr).
  unfold train_self, assigned in Hod, Hself. rewrite Harg in Hod, Hself.
  assert (Hout : output_dir (self s1) = Some d).
  { rewrite Hself.
    by destruct (tr_split_train a), (tr_split_validation a). }
  assert (Hfix : fixed (self s1) = fixed (self s)).
  { rewrite Hself.
    by destruct (tr_split_train a), (tr_split_validation a). }
  apply evaluate_spec in Heval
    as [_ (d2 & name & ds & m & metrics & text' & Hself2 & Hod2 & _ & _ & _ &
           _ & -> & Hjs & Hfs & Htr2)].
  assert (d2 = d) as ->.
  { rewrite Hself2 in Hod2. unfold assigned in Hod2.
    destruct split; simpl in Hod2; congruence. }
  split_and!.
  - eexists. rewrite Htr, <- Hbest.
    rewrite !app_assoc. exact (app_assoc _ [_; _] [_]).
  - eexists _, _. split; [exact Htr2 |]. simpl. unfold model_source.
    rewrite Hfix, Hbest. by destruct (path_exists _ _).
  - exists text'. split; [done |]. rewrite Hfs. apply lookup_insert_eq.
Qed.
End composition.

Lemma toy_push :
  @push_to_hub Toy.types Toy.hub "cardiffnlp" "roberta-tweet" push_defaults
    (Toy.built Toy.hub) = (Ok tt, toy_pushed).
Proof. vm_compute. reflexivity. Qed.

Lemma push_to_hub_drops_shell_status_toy :
  (∃ evs,
     trace (world toy_pushed) = trace (world (Toy.built Toy.hub)) ++ evs ∧
     ∃ pre status f1,
       evs = pre ++ [EvSystem (publish_command "roberta-tweet") status] ∧
       (∀ command status', EvSystem command status' ∉ pre) ∧
       @os_system Toy.types Toy.hub (publish_command "roberta-tweet") f1 =
         (status, fs (world toy_pushed))) ∧
  last (trace (world toy_pushed)) =
    Some (EvSystem (publish_command "roberta-tweet") 256).
Proof.
  split.
  - exact (@push_to_hub_drops_shell_status Toy.types Toy.hub "cardiffnlp"
             "roberta-tweet" push_defaults (Toy.built Toy.hub) (Ok tt)
             toy_pushed toy_push).
  - vm_compute. reflexivity.
Defined.

Lemma push_to_hub_success_order_toy :
  ∃ d readme written status,
    output_dir (self toy_pushed) = Some d ∧
    @get_readme Toy.types Toy.hub
      (readme_args "cardiffnlp" "roberta-tweet" d (self toy_pushed))
      (fs (world (Toy.built Toy.hub))) = inr readme ∧
    written =
      <["roberta-tweet" +:+ "/README.md" := File readme]>
        (<["roberta-tweet" +:+ "/README.md" := File ""]>
           (fs (world (Toy.built Toy.hub)))) ∧
    trace (world toy_pushed) =
      trace (world (Toy.built Toy.hub))
      ++ [EvCreateRepo "roberta-tweet" "cardiffnlp";
          EvGetReadme
            (readme_args "cardiffnlp" "roberta-tweet" d (self toy_pushed));
          EvWriteFile ("roberta-tweet" +:+ "/README.md") readme]
      ++ (if decide (is_Some
                       (written !! best_run_hyperparameters_path
                                     (fixed (self (Toy.built Toy.hub)))))
          then [EvCopy
                  (best_run_hyperparameters_path
                     (fixed (self (Toy.built Toy.hub))))
                  (pj "roberta-tweet" "best_run_hyperparameters.json")]
          else [])
      ++ [EvSystem (publish_command "roberta-tweet") status].
Proof.
  exact (@push_to_hub_success_order Toy.types Toy.hub "cardiffnlp"
           "roberta-tweet" push_defaults (Toy.built Toy.hub) toy_pushed
           toy_push).
Defined.

Lemma push_to_hub_assigns_only_its_arguments_toy :
  fixed (self toy_pushed) = fixed (Toy.trainer Toy.hub) ∧
  model (self toy_pushed) = "roberta" ∧
  ((Ok tt : @Res (@Err Toy.types) unit) = Ok tt →
   dataset_name (self toy_pushed) = None ∧
   dataset_type (self toy_pushed) = None ∧
   output_dir (self toy_pushed) = Some "out" ∧
   split_train (self toy_pushed) = Some "train" ∧
   split_validation (self toy_pushed) = Some "validation" ∧
   split_test (self toy_pushed) = Some "test").
Proof.
  exact (@push_to_hub_assigns_only_its_arguments Toy.types Toy.hub
           "cardiffnlp" "roberta-tweet" push_defaults (Toy.built Toy.hub)
           (Ok tt) toy_pushed toy_push).
Defined.

Lemma assertion_without_output_dir_toy :
  @train Toy.types Toy.plain train_defaults toy_unset =
    (Raise (AssertionError "output_dir should be specified." []), toy_unset) ∧
  @evaluate Toy.types Toy.plain (Some "test") None toy_unset =
    (Raise (AssertionError "output_dir should be specified." []), toy_unset) ∧
  @push_to_hub Toy.types Toy.plain "cardiffnlp" "roberta-tweet" toy_push_named
    toy_unset =
    (Raise (AssertionError "output_dir should be specified." []),
     {| self := set_dataset_name (Some "tweet_eval") (self toy_unset);
        world := world toy_unset |}).
Proof.
  destruct (@assertion_without_output_dir Toy.types Toy.plain toy_unset
              eq_refl) as (Htrain & Hevaluate & Hpush).
  split_and!.
  - exact (Htrain train_defaults eq_refl).
  - exact (Hevaluate (Some "test")).
  - exact (Hpush "cardiffnlp" "roberta-tweet" toy_push_named eq_refl).
Defined.

Lemma evaluate_after_train_toy :
  (∃ pre,
     trace (world toy_moved_trained) =
     pre ++ [EvSaveModel (pj "out" "best_model")]) ∧
  (∃ args rest,
     trace (world toy_moved_evaluated) =
       trace (world toy_moved_trained) ++ EvLoadModel args :: rest ∧
     lm_model args =
       if path_exists (pj "out" "best_model") (world toy_moved_trained)
       then pj "out" "best_model"
       else language_model (fixed (self (Toy.built Toy.plain)))) ∧
  ∃ text,
    @json_dumps Toy.types Toy.plain None toy_report = inr text ∧
    fs (world toy_moved_evaluated) !! ("other" +:+ "/metric.json") =
      Some (File text).
Proof.
  apply (@evaluate_after_train Toy.types Toy.plain "out" "other" toy_moved
           (Toy.built Toy.plain) toy_moved_trained None toy_report
           toy_moved_evaluated).
  - exact (toy_constructed false 0).
  - reflexivity.
  - vm_compute. reflexivity.
  - vm_compute. reflexivity.
Defined.

Section search_properties.
Context {T : ExtTypes} {X : Externals}.



(** X7: with the default learning-rate range, an epoch range of two
    bounds of which one is no integer (a float, a string, [None]) makes
    [train] raise a [TypeError], that of [range], once the [Trainer] is
    set up: the two length assertions pass and no search is started. *)
Theorem train_rejects_non_integer_epochs a s trainer s1 e0 e1 :
  train_setup a s = (Ok trainer, s1) →
  tr_search_range_lr a = None →
  tr_search_range_epoch a = Some [e0; e1] →
  py_index e0 = None ∨ py_index e1 = None →
  ∃ msg, train a s = (Raise (TypeError msg), s1).
Proof.
  intros Hsetup Hlr Hep Hindex.
  unfold train. rewrite (bind_ok _ _ _ _ _ Hsetup).
  destruct (define_search_space_lengths (ExtErr:=ExtErr)
              (tr_search_range_lr a) (tr_search_range_epoch a)
              (tr_search_list_batch a))
    as (lr0 & lr1 & e0' & e1' & _ & Hep' & Heq);
    [by rewrite Hlr | by rewrite Hep |].
  rewrite Hep in Hep'. simpl in Hep'. simplify_eq.
  rewrite Heq. unfold range_list.
  eexists. destruct Hindex as [->| ->]; [done |].
  by destruct (py_index e0').
Qed.

End search_properties.


Lemma train_rejects_non_integer_epochs_toy :
  ∃ msg,
    (@train Toy.types Toy.plain toy_float_epochs (Toy.built Toy.plain)).1 =
    Raise (TypeError msg).
Proof.
  destruct (@train_setup Toy.types Toy.plain toy_float_epochs
              (Toy.built Toy.plain)) as [[e|trainer] s1] eqn:Hsetup;
    [vm_compute in Hsetup; discriminate |].
  destruct (@train_rejects_non_integer_epochs Toy.types Toy.plain
              toy_float_epochs (Toy.built Toy.plain) trainer s1
              (VFloat 1) (VFloat 6) Hsetup eq_refl eq_refl (or_introl eq_refl))
    as (msg & Hrun).
  exists msg. by rewrite Hrun.
Defined.

